(** * InkBattle backend: room phase engine, guess evaluation and session layer

    A shallow embedding of the parts of the server that decide game truth:
    - [sockets/roundPhases.js]: [transitionPhase], [endDrawingPhase],
      [handleChoosingWordTimeout], [removeParticipantFromRoom],
      [checkAndCloseEmptyRoom];
    - [sockets/gameHelpers.js]: [calculateEntryCost], [calculateGuessReward],
      [updateParticipantScore], [checkGameEnd], [endGame];
    - [sockets/socket.js]: the [connection] / [disconnect] bookkeeping of the
      user→socket map and the [submit_guess], [choose_word] and [start_game]
      handlers;
    - [sockets/userSocketMap.js], [sockets/readyState.js], [utils/cleanRoom.js].

    Conventions of the embedding.
    - The database is an explicit [Store]; every handler is a function from
      the store (and its request) to the new store and the list of emitted
      socket events.  Handlers run to completion one after the other: the
      interleaving of two handlers at an [await] is not modelled.
    - A table is a finite map from the primary key to the row.  A model
      instance (what [findByPk] or [findOne] returns) is the pair of the key
      and the row, so [room.id] is the first component.
    - JavaScript numbers that stay integral are [Z]; scores, which receive the
      quotient [20*G/E], are exact rationals [Qc] (binary rounding of doubles
      is not modelled).  [Date] values are milliseconds in [Z].
    - Every reading of the wall clock ([Date.now()], [new Date()]) is an
      explicit argument.
    - Exceptions of the database driver, and timers armed with [setTimeout],
      are outside the model. *)

From Stdlib Require Import ZArith QArith Qcanon String Ascii List Lia Permutation Sorted.
From stdpp Require Import gmap strings list fin_maps numbers.

Local Open Scope string_scope.
Local Open Scope list_scope.
Local Open Scope Z_scope.

(** ** Data model *)

(** [models/room.js]: the columns of [rooms] the game logic reads or writes
    (the primary key [id] is the key of the table). *)
Record Room : Type := Build_Room {
  code : string;
  ownerId : Z;
  gameMode : string;
  entryPoints : Z;
  targetPoints : Z;
  maxPointsPerRound : Z;
  voiceEnabled : bool;
  status : string;
  currentWord : option string;
  usedWords : list string;
  currentWordOptions : option (list string);
  currentDrawerId : option Z;
  currentRound : Z;
  roundStartTime : option Z;
  roundPhase : option string;
  roundPhaseEndTime : option Z;
  roundRemainingTime : option Z;
  drawnUserIds : list Z
}.

Inductive RoomField : Type :=
  | R_status (v : string)
  | R_currentWord (v : option string)
  | R_usedWords (v : list string)
  | R_currentWordOptions (v : option (list string))
  | R_currentDrawerId (v : option Z)
  | R_currentRound (v : Z)
  | R_roundStartTime (v : option Z)
  | R_roundPhase (v : option string)
  | R_roundPhaseEndTime (v : option Z)
  | R_roundRemainingTime (v : option Z)
  | R_drawnUserIds (v : list Z).

Definition setRoomField (a : RoomField) (r : Room) : Room :=
  match a with
  | R_status v =>
      Build_Room (code r) (ownerId r) (gameMode r) (entryPoints r) (targetPoints r) (maxPointsPerRound r) (voiceEnabled r) v (currentWord r) (usedWords r) (currentWordOptions r) (currentDrawerId r) (currentRound r) (roundStartTime r) (roundPhase r) (roundPhaseEndTime r) (roundRemainingTime r) (drawnUserIds r)
  | R_currentWord v =>
      Build_Room (code r) (ownerId r) (gameMode r) (entryPoints r) (targetPoints r) (maxPointsPerRound r) (voiceEnabled r) (status r) v (usedWords r) (currentWordOptions r) (currentDrawerId r) (currentRound r) (roundStartTime r) (roundPhase r) (roundPhaseEndTime r) (roundRemainingTime r) (drawnUserIds r)
  | R_usedWords v =>
      Build_Room (code r) (ownerId r) (gameMode r) (entryPoints r) (targetPoints r) (maxPointsPerRound r) (voiceEnabled r) (status r) (currentWord r) v (currentWordOptions r) (currentDrawerId r) (currentRound r) (roundStartTime r) (roundPhase r) (roundPhaseEndTime r) (roundRemainingTime r) (drawnUserIds r)
  | R_currentWordOptions v =>
      Build_Room (code r) (ownerId r) (gameMode r) (entryPoints r) (targetPoints r) (maxPointsPerRound r) (voiceEnabled r) (status r) (currentWord r) (usedWords r) v (currentDrawerId r) (currentRound r) (roundStartTime r) (roundPhase r) (roundPhaseEndTime r) (roundRemainingTime r) (drawnUserIds r)
  | R_currentDrawerId v =>
      Build_Room (code r) (ownerId r) (gameMode r) (entryPoints r) (targetPoints r) (maxPointsPerRound r) (voiceEnabled r) (status r) (currentWord r) (usedWords r) (currentWordOptions r) v (currentRound r) (roundStartTime r) (roundPhase r) (roundPhaseEndTime r) (roundRemainingTime r) (drawnUserIds r)
  | R_currentRound v =>
      Build_Room (code r) (ownerId r) (gameMode r) (entryPoints r) (targetPoints r) (maxPointsPerRound r) (voiceEnabled r) (status r) (currentWord r) (usedWords r) (currentWordOptions r) (currentDrawerId r) v (roundStartTime r) (roundPhase r) (roundPhaseEndTime r) (roundRemainingTime r) (drawnUserIds r)
  | R_roundStartTime v =>
      Build_Room (code r) (ownerId r) (gameMode r) (entryPoints r) (targetPoints r) (maxPointsPerRound r) (voiceEnabled r) (status r) (currentWord r) (usedWords r) (currentWordOptions r) (currentDrawerId r) (currentRound r) v (roundPhase r) (roundPhaseEndTime r) (roundRemainingTime r) (drawnUserIds r)
  | R_roundPhase v =>
      Build_Room (code r) (ownerId r) (gameMode r) (entryPoints r) (targetPoints r) (maxPointsPerRound r) (voiceEnabled r) (status r) (currentWord r) (usedWords r) (currentWordOptions r) (currentDrawerId r) (currentRound r) (roundStartTime r) v (roundPhaseEndTime r) (roundRemainingTime r) (drawnUserIds r)
  | R_roundPhaseEndTime v =>
      Build_Room (code r) (ownerId r) (gameMode r) (entryPoints r) (targetPoints r) (maxPointsPerRound r) (voiceEnabled r) (status r) (currentWord r) (usedWords r) (currentWordOptions r) (currentDrawerId r) (currentRound r) (roundStartTime r) (roundPhase r) v (roundRemainingTime r) (drawnUserIds r)
  | R_roundRemainingTime v =>
      Build_Room (code r) (ownerId r) (gameMode r) (entryPoints r) (targetPoints r) (maxPointsPerRound r) (voiceEnabled r) (status r) (currentWord r) (usedWords r) (currentWordOptions r) (currentDrawerId r) (currentRound r) (roundStartTime r) (roundPhase r) (roundPhaseEndTime r) v (drawnUserIds r)
  | R_drawnUserIds v =>
      Build_Room (code r) (ownerId r) (gameMode r) (entryPoints r) (targetPoints r) (maxPointsPerRound r) (voiceEnabled r) (status r) (currentWord r) (usedWords r) (currentWordOptions r) (currentDrawerId r) (currentRound r) (roundStartTime r) (roundPhase r) (roundPhaseEndTime r) (roundRemainingTime r) v
  end.

Definition applyRoomFields (upd : list RoomField) (r : Room) : Room :=
  foldl (fun acc a => setRoomField a acc) r upd.

(** Modelled from the spec: the participant model, whose file
    [models/roomParticipant.js] is missing.  Section 3 lists the columns;
    they are the ones the handlers read and write ([roomId], [userId],
    [team], ...).  The primary key [id] is the key of the table; [team] is a
    nullable string ("blue", "orange"); [eliminationCount] starts at 3. *)
Record Participant : Type := Build_Participant {
  roomId : Z;
  userId : Z;
  team : option string;
  isDrawer : bool;
  isActive : bool;
  score : Qc;
  points_updated_at : option Z;
  hasGuessedThisRound : bool;
  hasPaidEntry : bool;
  eliminationCount : Z;
  socketId : option string
}.

Inductive ParticipantField : Type :=
  | P_isDrawer (v : bool)
  | P_isActive (v : bool)
  | P_score (v : Qc)
  | P_points_updated_at (v : option Z)
  | P_hasGuessedThisRound (v : bool)
  | P_hasPaidEntry (v : bool)
  | P_eliminationCount (v : Z)
  | P_socketId (v : option string).

Definition setParticipantField (a : ParticipantField) (r : Participant) : Participant :=
  match a with
  | P_isDrawer v =>
      Build_Participant (roomId r) (userId r) (team r) v (isActive r) (score r) (points_updated_at r) (hasGuessedThisRound r) (hasPaidEntry r) (eliminationCount r) (socketId r)
  | P_isActive v =>
      Build_Participant (roomId r) (userId r) (team r) (isDrawer r) v (score r) (points_updated_at r) (hasGuessedThisRound r) (hasPaidEntry r) (eliminationCount r) (socketId r)
  | P_score v =>
      Build_Participant (roomId r) (userId r) (team r) (isDrawer r) (isActive r) v (points_updated_at r) (hasGuessedThisRound r) (hasPaidEntry r) (eliminationCount r) (socketId r)
  | P_points_updated_at v =>
      Build_Participant (roomId r) (userId r) (team r) (isDrawer r) (isActive r) (score r) v (hasGuessedThisRound r) (hasPaidEntry r) (eliminationCount r) (socketId r)
  | P_hasGuessedThisRound v =>
      Build_Participant (roomId r) (userId r) (team r) (isDrawer r) (isActive r) (score r) (points_updated_at r) v (hasPaidEntry r) (eliminationCount r) (socketId r)
  | P_hasPaidEntry v =>
      Build_Participant (roomId r) (userId r) (team r) (isDrawer r) (isActive r) (score r) (points_updated_at r) (hasGuessedThisRound r) v (eliminationCount r) (socketId r)
  | P_eliminationCount v =>
      Build_Participant (roomId r) (userId r) (team r) (isDrawer r) (isActive r) (score r) (points_updated_at r) (hasGuessedThisRound r) (hasPaidEntry r) v (socketId r)
  | P_socketId v =>
      Build_Participant (roomId r) (userId r) (team r) (isDrawer r) (isActive r) (score r) (points_updated_at r) (hasGuessedThisRound r) (hasPaidEntry r) (eliminationCount r) v
  end.

Definition applyParticipantFields (upd : list ParticipantField) (p : Participant) : Participant :=
  foldl (fun acc a => setParticipantField a acc) p upd.

(** [models/user.js] (the columns used here) and the coin ledger. *)
Record User : Type := Build_User { name : string; coins : Z }.

Record CoinTransaction : Type := Build_CoinTransaction {
  tx_userId : Z; tx_amount : Z; tx_reason : string }.

Record Store : Type := Build_Store {
  rooms : gmap Z Room;
  participants : gmap Z Participant;
  users : gmap Z User;
  coinTransactions : list CoinTransaction
}.

Definition RoomInst : Type := Z * Room.
Definition ParticipantInst : Type := Z * Participant.

Definition withRooms (st : Store) (rs : gmap Z Room) : Store :=
  Build_Store rs (participants st) (users st) (coinTransactions st).
Definition withParticipants (st : Store) (ps : gmap Z Participant) : Store :=
  Build_Store (rooms st) ps (users st) (coinTransactions st).
Definition withUsers (st : Store) (us : gmap Z User) : Store :=
  Build_Store (rooms st) (participants st) us (coinTransactions st).
Definition withTransactions (st : Store) (ts : list CoinTransaction) : Store :=
  Build_Store (rooms st) (participants st) (users st) ts.

(** ** Sequelize primitives over the store *)

(** [Room.findByPk(id)]. *)
Definition Room_findByPk (st : Store) (k : Z) : option RoomInst :=
  (fun r => (k, r)) <$> rooms st !! k.

(** Modelled from the spec: [getRoom] of the missing module
    [utils/roomCache.js].  Section 4.2 makes the cache a read-through
    snapshot that is never the source of truth, so [getRoom(id)] is the row
    of the store. *)
Definition getRoom (st : Store) (k : Z) : option RoomInst := Room_findByPk st k.

(** Modelled from the spec: [getRoomByCode] of the missing module
    [utils/roomCache.js]: the room whose unique [code] is the given one. *)
Definition getRoomByCode (st : Store) (c : string) : option RoomInst :=
  List.find (fun kr => bool_decide (code kr.2 = c)) (map_to_list (rooms st)).

(** [Room.update(updates, { where })]: the new table and the number of
    affected rows. *)
Definition Room_update (upd : list RoomField) (cond : Z -> Room -> bool)
    (st : Store) : Store * Z :=
  (withRooms st
     (map_imap (fun k r => Some (if cond k r then applyRoomFields upd r else r)) (rooms st)),
   Z.of_nat (length (List.filter (fun kr => cond kr.1 kr.2) (map_to_list (rooms st))))).

(** [room.save()] after assignments to the instance: the assigned columns are
    written to the row of that primary key. *)
Definition Room_save (k : Z) (changed : list RoomField) (st : Store) : Store :=
  withRooms st (alter (applyRoomFields changed) k (rooms st)).

(** [RoomParticipant.findAll({ where })], [findOne] and [count]. *)
Definition RoomParticipant_findAll (cond : Participant -> bool) (st : Store)
    : list ParticipantInst :=
  List.filter (fun kp => cond kp.2) (map_to_list (participants st)).

Definition RoomParticipant_findOne (cond : Participant -> bool) (st : Store)
    : option ParticipantInst :=
  head (RoomParticipant_findAll cond st).

Definition RoomParticipant_count (cond : Participant -> bool) (st : Store) : Z :=
  Z.of_nat (length (RoomParticipant_findAll cond st)).

(** [RoomParticipant.update(values, { where })]. *)
Definition RoomParticipant_update (upd : list ParticipantField)
    (cond : Participant -> bool) (st : Store) : Store :=
  withParticipants st
    ((fun p => if cond p then applyParticipantFields upd p else p) <$> participants st).

(** [participant.save()]: the assigned columns go to the row of that key. *)
Definition RoomParticipant_save (k : Z) (changed : list ParticipantField)
    (st : Store) : Store :=
  withParticipants st (alter (applyParticipantFields changed) k (participants st)).

(** ** [roundPhases.js]: the atomic phase transition *)

(** [transitionPhase(roomId, fromPhase, updates)].  The log line and the
    refresh of the cache do not touch the store. *)
Definition transitionPhase (st : Store) (roomId : Z) (fromPhase : option string)
    (updates : list RoomField) : Store * option RoomInst :=
  let '(st1, affectedCount) :=
    Room_update updates
      (fun k r => bool_decide (k = roomId) && bool_decide (roundPhase r = fromPhase)) st in
  if bool_decide (affectedCount = 0) then (st1, None)
  else (st1, getRoom st1 roomId).

(** ** JavaScript helpers *)

(** [Math.ceil(a / b)] for integers [a] and [b > 0]. *)
Definition ceilDiv (a b : Z) : Z := - ((- a) / b).

(** [Math.min] on numbers. *)
Definition Qcmin (x y : Qc) : Qc := if bool_decide (x <= y)%Qc then x else y.

(** [String.prototype.trim] and [toLowerCase], on the ASCII range: the white
    space characters are TAB, LF, VT, FF, CR and SPACE, the letters are A-Z. *)
Definition isWhitespace (c : ascii) : bool :=
  let n := nat_of_ascii c in
  (Nat.eqb n 32 || (Nat.leb 9 n && Nat.leb n 13))%bool.

Fixpoint trimStart (l : list ascii) : list ascii :=
  match l with
  | [] => []
  | c :: l' => if isWhitespace c then trimStart l' else l
  end.

Definition trim (s : string) : string :=
  string_of_list_ascii (rev (trimStart (rev (trimStart (list_ascii_of_string s))))).

Definition lowerChar (c : ascii) : ascii :=
  let n := nat_of_ascii c in
  if (Nat.leb 65 n && Nat.leb n 90)%bool then ascii_of_nat (n + 32) else c.

Definition toLowerCase (s : string) : string :=
  string_of_list_ascii (map lowerChar (list_ascii_of_string s)).

(** [Array.prototype.sort(compare)]: the sort is stable, so with a comparator
    that is a total preorder its result is the one of a stable insertion sort.
    [gt a b] stands for [compare(a, b) > 0]. *)
Fixpoint sortInsert {A} (gt : A -> A -> bool) (x : A) (l : list A) : list A :=
  match l with
  | [] => [x]
  | y :: l' => if gt x y then y :: sortInsert gt x l' else x :: y :: l'
  end.

Definition stableSort {A} (gt : A -> A -> bool) (l : list A) : list A :=
  foldr (sortInsert gt) [] l.

(** ** Events sent to the clients

    The payloads keep the fields the game rules determine; display fields
    (names, avatars) are left out. *)
Record Ranking : Type := Build_Ranking {
  place : Z; rk_userId : Z; rk_score : Qc; coinsAwarded : Z; rk_team : option string }.

Inductive Event : Type :=
  | guess_result (toSocket : string) (ok : bool) (message : string)
  | incorrect_guess (roomCode : string) (byUser : Z) (guess : string)
  | correct_guess (roomCode : string) (byUser : Z) (word : string) (points : Z)
      (teamThatScored : option string) (remainingTime : Z)
  | score_update (roomCode : string) (ofUser : Z) (newScore : Qc)
  | room_participants (roomCode : string) (scores : list (Z * Qc))
  | phase_change (roomCode : string) (phase : string) (duration : Z)
      (phaseEndTime : Z) (drawerReward : Qc)
  | game_ended (roomCode : string) (rankings : list Ranking) (entryCost : Z)
      (mode : string)
  | game_started (roomCode : string) (entryCost : Z)
  | drawer_skipped (roomCode : string) (drawer : Z) (remainingEliminations : Z)
  | player_removed (roomCode : string) (removedUser : Z) (reason : string)
  | room_closed (roomCode : string)
  | clear_chat (roomCode : string)
  | error_event (toSocket : string) (message : string).

(** A connected socket as the handlers see it: its id and [socket.user]. *)
Record Socket : Type := Build_Socket { socket_id : string; socket_user : option Z }.

(** [!socket.user || !socket.user.id]: the id of an authenticated socket. *)
Definition authenticatedUser (s : Socket) : option Z :=
  match socket_user s with
  | Some u => if bool_decide (u = 0) then None else Some u
  | None => None
  end.

(** ** [gameHelpers.js] *)

Definition PHASE_DURATIONS_selecting_drawer : Z := 5.
Definition PHASE_DURATIONS_choosing_word : Z := 10.
Definition PHASE_DURATIONS_drawing : Z := 80.
Definition PHASE_DURATIONS_reveal : Z := 7.
Definition PHASE_DURATIONS_interval : Z := 4.

Definition calculateEntryCost (entryPoints : Z) (voiceEnabled : bool) : Z := entryPoints.

Definition calculateGuessReward (remainingTime maxPoints : Z) : Z :=
  Z.min (ceilDiv remainingTime 8) maxPoints.

(** [updateParticipantScore(participant, pointsToAdd)]: the instance is
    mutated and saved; the result carries the mutated instance. *)
Definition updateParticipantScore (st : Store) (p : ParticipantInst) (pointsToAdd : Qc)
    (now : Z) : Store * ParticipantInst :=
  let changed := [P_score (score p.2 + pointsToAdd)%Qc; P_points_updated_at (Some now)] in
  (RoomParticipant_save p.1 changed st, (p.1, applyParticipantFields changed p.2)).

(** [ORDER BY score DESC, points_updated_at ASC] of the two [findAll] calls
    below (MySQL puts NULL first in ascending order); rows with equal keys
    come in the order of the table. *)
Definition dbOrderGt (a b : ParticipantInst) : bool :=
  if bool_decide (score a.2 = score b.2) then
    match points_updated_at a.2, points_updated_at b.2 with
    | Some ta, Some tb => bool_decide (tb < ta)
    | Some _, None => true
    | None, _ => false
    end
  else bool_decide (score a.2 < score b.2)%Qc.

Definition activeInRoomByRank (st : Store) (roomId_ : Z) : list ParticipantInst :=
  stableSort dbOrderGt
    (RoomParticipant_findAll
       (fun p => bool_decide (roomId p = roomId_) && isActive p) st).

(** [user.coins += amount; user.save(); CoinTransaction.create(...)]. *)
Definition addCoins (st : Store) (uid amount : Z) (reason : string) : Store :=
  withTransactions
    (withUsers st (alter (fun u => Build_User (name u) (coins u + amount)) uid (users st)))
    (coinTransactions st ++ [Build_CoinTransaction uid amount reason]).

(** The comparator of the 1v1 branch of [endGame]: [compare(a, b) > 0]. *)
Definition timeOf (p : Participant) : Z := default 0 (points_updated_at p).

Definition rankCompareGt (a b : ParticipantInst) : bool :=
  if bool_decide (score b.2 <> score a.2) then bool_decide (0 < score b.2 - score a.2)%Qc
  else bool_decide (0 < timeOf a.2 - timeOf b.2).

(** [rewards]: place and multiplier. *)
Definition soloRewards : list (Z * Z) := [(1, 3); (2, 2); (3, 1)].

Definition placeReason (currentPlace : Z) : string :=
  if bool_decide (currentPlace = 1) then "game_reward_place_1"
  else if bool_decide (currentPlace = 2) then "game_reward_place_2"
  else "game_reward_place_3".

(** One turn of the loop [for (i = 0; i < Math.min(length, 3); i++)]. *)
Definition soloAward (entryCost : Z) (isTwoPlayer : bool)
    (acc : Store * list Ranking) (item : nat * (ParticipantInst * (Z * Z)))
    : Store * list Ranking :=
  let participant := item.2.1 in
  let reward := item.2.2 in
  let currentPlace := Z.of_nat item.1 + 1 in
  let coinsAwarded :=
    if isTwoPlayer then (if bool_decide (currentPlace = 1) then entryCost * 2 else 0)
    else entryCost * reward.2 in
  match users acc.1 !! userId participant.2 with
  | Some _ =>
      (if bool_decide (0 < coinsAwarded)
       then addCoins acc.1 (userId participant.2) coinsAwarded (placeReason currentPlace)
       else acc.1,
       acc.2 ++ [Build_Ranking currentPlace (userId participant.2) (score participant.2)
                   coinsAwarded None])
  | None => acc
  end.

Definition soloRankings (st : Store) (entryCost : Z)
    (finalParticipants : list ParticipantInst) : Store * list Ranking :=
  let sorted := stableSort rankCompareGt finalParticipants in
  let isTwoPlayer := bool_decide (length sorted = 2%nat) in
  let top :=
    foldl (soloAward entryCost isTwoPlayer) (st, [])
      (combine (seq 0 3) (combine sorted soloRewards)) in
  (top.1,
   top.2 ++ imap (fun j p => Build_Ranking (Z.of_nat (j + 3) + 1) (userId p.2) (score p.2) 0 None)
              (drop 3 sorted)).

(** The team branch: [teamScores] and [teamMembers] are objects with the same
    keys, in insertion order. *)
Definition TeamTable : Type := list (string * (Qc * list ParticipantInst)).

Fixpoint teamGet (t : string) (tbl : TeamTable) : option (Qc * list ParticipantInst) :=
  match tbl with
  | [] => None
  | (t', v) :: tbl' => if bool_decide (t' = t) then Some v else teamGet t tbl'
  end.

Fixpoint teamSet (t : string) (v : Qc * list ParticipantInst) (tbl : TeamTable) : TeamTable :=
  match tbl with
  | [] => [(t, v)]
  | (t', v') :: tbl' =>
      if bool_decide (t' = t) then (t', v) :: tbl' else (t', v') :: teamSet t v tbl'
  end.

(** [!team] is true for null and for the empty string; [!teamScores[team]] is
    true for a missing key and for the score 0. *)
Definition teamGroup (tbl : TeamTable) (p : ParticipantInst) : TeamTable :=
  match team p.2 with
  | None => tbl
  | Some t =>
      if bool_decide (t = "") then tbl
      else match teamGet t tbl with
           | None => teamSet t (score p.2, [p]) tbl
           | Some (s, members) =>
               if bool_decide (s = 0%Qc) then teamSet t (score p.2, [p]) tbl
               else teamSet t (s, members ++ [p]) tbl
           end
  end.

Definition teamWinnerAward (coins_ : Z) (acc : Store * list Ranking) (p : ParticipantInst)
    : Store * list Ranking :=
  match users acc.1 !! userId p.2 with
  | Some _ =>
      (addCoins acc.1 (userId p.2) coins_ "game_reward_team_vs_team_winner",
       acc.2 ++ [Build_Ranking 1 (userId p.2) (score p.2) coins_ (team p.2)])
  | None => acc
  end.

Definition hasNoTeam (p : Participant) : bool :=
  match team p with None => true | Some t => bool_decide (t = "") end.

Definition teamRankings (st : Store) (entryCost : Z)
    (finalParticipants : list ParticipantInst) : option (Store * list Ranking) :=
  let tbl := foldl teamGroup [] finalParticipants in
  let teams := stableSort (fun a b => bool_decide (0 < b.2.1 - a.2.1)%Qc) tbl in
  match teams with
  | [] => None
  | winning :: losing =>
      let won := foldl (teamWinnerAward (entryCost * 2)) (st, []) winning.2.2 in
      let lost :=
        concat (imap (fun j t =>
                  map (fun p => Build_Ranking (Z.of_nat (j + 1) + 1) (userId p.2) (score p.2) 0
                                  (team p.2)) t.2.2) losing) in
      let teamless :=
        map (fun p => Build_Ranking (Z.of_nat (length teams) + 1) (userId p.2) (score p.2) 0 None)
          (List.filter (fun p => hasNoTeam p.2) finalParticipants) in
      Some (won.1, won.2 ++ lost ++ teamless)
  end.

(** [endGame(io, room, participants)].  The callback armed with [setTimeout]
    (back to the lobby, scores reset) is a later event of its own. *)
Definition endGame (st : Store) (room : RoomInst) : Store * list Event :=
  let st1 := Room_save room.1 [R_status "finished"] st in
  let finalParticipants := activeInRoomByRank st1 room.1 in
  let entryCost := calculateEntryCost (entryPoints room.2) (voiceEnabled room.2) in
  let mode := if bool_decide (gameMode room.2 = "") then "1v1" else gameMode room.2 in
  if bool_decide (mode = "team_vs_team") then
    match teamRankings st1 entryCost finalParticipants with
    | None => (st1, [])
    | Some (st2, rankings) => (st2, [game_ended (code room.2) rankings entryCost mode])
    end
  else
    let '(st2, rankings) := soloRankings st1 entryCost finalParticipants in
    (st2, [game_ended (code room.2) rankings entryCost mode]).

(** [checkGameEnd(io, room)]. *)
Definition checkGameEnd (st : Store) (room : RoomInst) : Store * list Event * bool :=
  let participants_ := activeInRoomByRank st room.1 in
  match List.find (fun p => bool_decide (Qc_of_Z (targetPoints room.2) <= score p.2)%Qc) participants_ with
  | Some _ => (endGame st room, true)
  | None => (st, [], false)
  end.

(** ** [roundPhases.js]: end of the drawing phase *)

Definition inRoom (roomId_ : Z) (p : Participant) : bool := bool_decide (roomId p = roomId_).

Definition isTeamMode (r : Room) : bool := bool_decide (gameMode r = "team_vs_team").

(** [Math.min((20 * guessedCount) / eligibleGuessers, maxPointsPerRound)]. *)
Definition drawerPointsFor (guessedCount eligibleGuessers maxPoints : Z) : Qc :=
  Qcmin (Qc_of_Z (20 * guessedCount) / Qc_of_Z eligibleGuessers)%Qc (Qc_of_Z maxPoints).

(** [endDrawingPhase(io, room)]; [tNow] is the [Date.now()] of the reveal end
    time, [tDrawer] the [new Date()] of the drawer's score update.  The timer
    of the reveal phase is not part of the store. *)
Definition endDrawingPhase (st : Store) (room : RoomInst) (tNow tDrawer : Z)
    : Store * list Event :=
  let '(st1, claimed) :=
    transitionPhase st room.1 (Some "drawing")
      [R_roundPhase (Some "reveal");
       R_roundPhaseEndTime (Some (tNow + PHASE_DURATIONS_reveal * 1000));
       R_roundRemainingTime (Some PHASE_DURATIONS_reveal)] in
  match claimed with
  | None => (st1, [])
  | Some room1 =>
      let guessedCount :=
        RoomParticipant_count (fun p => inRoom room1.1 p && hasGuessedThisRound p) st1 in
      let drawer :=
        match currentDrawerId room1.2 with
        | Some d =>
            RoomParticipant_findOne (fun p => inRoom room1.1 p && bool_decide (userId p = d)) st1
        | None => None
        end in
      let participants_ :=
        RoomParticipant_findAll (fun p => inRoom room1.1 p && isActive p) st1 in
      let eligibleGuessers := Z.max 1 (Z.of_nat (length participants_) - 1) in
      let drawerPoints :=
        drawerPointsFor guessedCount eligibleGuessers (maxPointsPerRound room1.2) in
      let '(st2, scoreEvents, drawerRewardValue) :=
        match drawer with
        | Some d =>
            if bool_decide (0 < guessedCount) && negb (isTeamMode room1.2) then
              let '(st2, d') := updateParticipantScore st1 d drawerPoints tDrawer in
              (st2, [score_update (code room1.2) (userId d'.2) (score d'.2)], drawerPoints)
            else (st1, [], 0%Qc)
        | None => (st1, [], 0%Qc)
        end in
      let reveal :=
        phase_change (code room1.2) "reveal" PHASE_DURATIONS_reveal
          (default 0 (roundPhaseEndTime room1.2)) drawerRewardValue in
      let '(st3, endEvents, _) := checkGameEnd st2 room1 in
      (st3, scoreEvents ++ [reveal] ++ endEvents)
  end.

(** ** [socket.js]: [submit_guess] *)

(** The readings of the clock during one [submit_guess]: the round-ended
    check, the remaining time of the reward, the [points_updated_at] stamp of
    the award, and the two readings inside [endDrawingPhase]. *)
Record GuessClock : Type := Build_GuessClock {
  t_check : Z; t_reward : Z; t_award : Z; t_reveal : Z; t_drawer : Z }.

(** [if (roomCode) getRoomByCode(roomCode) else if (roomId) Room.findByPk(roomId)]. *)
Definition resolveRoom (st : Store) (roomCode : option string) (roomId_ : option Z)
    : option RoomInst :=
  let byId :=
    match roomId_ with
    | Some k => if bool_decide (k = 0) then None else Room_findByPk st k
    | None => None
    end in
  match roomCode with
  | Some c => if bool_decide (c = "") then byId else getRoomByCode st c
  | None => byId
  end.

(** The remaining time and the reward of a correct guess. *)
Definition roundRemaining (r : Room) (now : Z) : Z :=
  match roundPhaseEndTime r with
  | Some e => Z.max 0 (ceilDiv (e - now) 1000)
  | None => default 0 (roundRemainingTime r)
  end.

Definition guessReward (r : Room) (now : Z) : Z :=
  calculateGuessReward (roundRemaining r now) (maxPointsPerRound r).

(** [Date.now() > room.roundPhaseEndTime] (null compares as 0). *)
Definition roundEnded (r : Room) (now : Z) : bool :=
  bool_decide (default 0 (roundPhaseEndTime r) < now).

(** The team gate: the drawer's row must exist and carry the guesser's team. *)
Definition currentDrawer (st : Store) (room : RoomInst) : option ParticipantInst :=
  match currentDrawerId room.2 with
  | Some d => RoomParticipant_findOne (fun p => inRoom room.1 p && bool_decide (userId p = d)) st
  | None => None
  end.

Definition onDrawersTeam (st : Store) (room : RoomInst) (p : Participant) : bool :=
  match currentDrawer st room with
  | Some drawer => bool_decide (team p = team drawer.2)
  | None => false
  end.

(** The transaction of the team award: the active members of the team are
    read under the lock; if one of them is already marked the transaction
    does nothing, otherwise each member is credited, stamped, marked and
    saved. *)
Definition isActiveTeamMember (roomId_ : Z) (t : option string) (p : Participant) : bool :=
  inRoom roomId_ p && bool_decide (team p = t) && isActive p.

Definition creditTeamMember (reward now : Z) (st : Store) (m : ParticipantInst) : Store :=
  RoomParticipant_save m.1
    [P_score (score m.2 + Qc_of_Z reward)%Qc; P_points_updated_at (Some now);
     P_hasGuessedThisRound true] st.

Definition teamAwardTransaction (st : Store) (roomId_ : Z) (t : option string)
    (reward now : Z) : Store :=
  let teamParticipants := RoomParticipant_findAll (isActiveTeamMember roomId_ t) st in
  if existsb (fun m => hasGuessedThisRound m.2) teamParticipants then st
  else foldl (creditTeamMember reward now) st teamParticipants.

Definition scoreList (ps : list ParticipantInst) : list (Z * Qc) :=
  map (fun p => (userId p.2, score p.2)) ps.

(** The branch of a correct guess that passed the gates. *)
Definition correctGuess (st : Store) (socket : Socket) (uid : Z) (room : RoomInst)
    (participant : ParticipantInst) (clk : GuessClock) : Store * list Event :=
  if roundEnded room.2 (t_check clk) then
    (st, [guess_result (socket_id socket) false "round_ended"])
  else
    let roundRemainingTime_ := roundRemaining room.2 (t_reward clk) in
    let reward := calculateGuessReward roundRemainingTime_ (maxPointsPerRound room.2) in
    let '(st1, scoreEvents) :=
      if isTeamMode room.2 then
        let st1 := teamAwardTransaction st room.1 (team participant.2) reward (t_award clk) in
        (st1,
         map (fun m => score_update (code room.2) (userId m.2) (score m.2))
           (RoomParticipant_findAll (isActiveTeamMember room.1 (team participant.2)) st1))
      else
        let '(st1, participant1) :=
          updateParticipantScore st participant (Qc_of_Z reward) (t_award clk) in
        (RoomParticipant_save participant1.1 [P_hasGuessedThisRound true] st1,
         [score_update (code room.2) (userId participant1.2) (score participant1.2)]) in
    let correct :=
      correct_guess (code room.2) uid (default "" (currentWord room.2)) reward
        (team participant.2) roundRemainingTime_ in
    let participants_ :=
      RoomParticipant_findAll (fun p => inRoom room.1 p && isActive p) st1 in
    let listing := room_participants (code room.2) (scoreList participants_) in
    if isTeamMode room.2 then
      let '(st2, endEvents) := endDrawingPhase st1 room (t_reveal clk) (t_drawer clk) in
      (st2, scoreEvents ++ [correct] ++ endEvents ++ [listing])
    else
      match Room_findByPk st1 room.1 with
      | None => (st1, scoreEvents ++ [correct])
      | Some freshRoom =>
          let eligibleCount :=
            RoomParticipant_count
              (fun p => inRoom freshRoom.1 p && isActive p && negb (isDrawer p)) st1 in
          let guessedCount :=
            RoomParticipant_count
              (fun p => inRoom freshRoom.1 p && isActive p && hasGuessedThisRound p) st1 in
          if bool_decide (eligibleCount = 0) || bool_decide (eligibleCount <= guessedCount) then
            let '(st2, endEvents) :=
              endDrawingPhase st1 freshRoom (t_reveal clk) (t_drawer clk) in
            (st2, scoreEvents ++ [correct] ++ endEvents ++ [listing])
          else (st1, scoreEvents ++ [correct] ++ [listing])
      end.

(** [socket.on("submit_guess", ...)]. *)
Definition submit_guess (st : Store) (socket : Socket) (roomCode : option string)
    (roomId_ : option Z) (guess : string) (clk : GuessClock) : Store * list Event :=
  let reject := fun msg => (st, [guess_result (socket_id socket) false msg]) in
  match resolveRoom st roomCode roomId_ with
  | None => reject "room_not_found"
  | Some room =>
      if negb (bool_decide (roundPhase room.2 = Some "drawing")) then reject "not_drawing_phase"
      else match currentWord room.2 with
      | None => reject "no_active_word"
      | Some currentWord_ =>
          if bool_decide (currentWord_ = "") then reject "no_active_word"
          else match authenticatedUser socket with
          | None => reject "not_authenticated"
          | Some uid =>
              match RoomParticipant_findOne
                      (fun p => inRoom room.1 p && bool_decide (userId p = uid)) st with
              | None => reject "not_in_room"
              | Some participant =>
                  if isDrawer participant.2 then reject "drawer_cannot_guess"
                  else if hasGuessedThisRound participant.2 then reject "already_guessed"
                  else if isTeamMode room.2 && negb (onDrawersTeam st room participant.2)
                  then reject "wrong_team"
                  else
                    let normalized := toLowerCase (trim guess) in
                    let word_ := toLowerCase (trim currentWord_) in
                    if bool_decide (normalized = word_) then
                      correctGuess st socket uid room participant clk
                    else
                      (st, [incorrect_guess (code room.2) uid guess;
                            guess_result (socket_id socket) false "incorrect"])
              end
          end
      end
  end.

(** ** [roundPhases.js]: the drawer who does not choose a word *)

(** [RoomParticipant.update(values, { where: { id } })]. *)
Definition RoomParticipant_updateById (k : Z) (upd : list ParticipantField)
    (st : Store) : Store :=
  withParticipants st (alter (applyParticipantFields upd) k (participants st)).

(** [deleteRoom(io, room)] of [utils/cleanRoom.js]: the participants of the
    room and the room row are destroyed (sockets leaving the channel and the
    timers are outside the store). *)
Definition deleteRoom (st : Store) (room : RoomInst) : Store * list Event :=
  (withRooms
     (withParticipants st
        (filter (fun kp => roomId kp.2 <> room.1) (participants st)))
     (delete room.1 (rooms st)),
   [room_closed (code room.2)]).

(** [checkAndCloseEmptyRoom(io, roomId)]. *)
Definition checkAndCloseEmptyRoom (st : Store) (roomId_ : Z) : Store * list Event :=
  let activeParticipants :=
    RoomParticipant_count (fun p => inRoom roomId_ p && isActive p) st in
  match getRoom st roomId_ with
  | None => (st, [])
  | Some room => if bool_decide (activeParticipants = 0) then deleteRoom st room else (st, [])
  end.

(** [removeParticipantFromRoom(io, room, userId)]. *)
Definition removeParticipantFromRoom (st : Store) (room : RoomInst) (uid : Z)
    : Store * list Event :=
  let st1 :=
    RoomParticipant_update [P_isActive false; P_socketId None]
      (fun p => inRoom room.1 p && bool_decide (userId p = uid)) st in
  let '(st2, closeEvents) := checkAndCloseEmptyRoom st1 room.1 in
  (st2, [player_removed (code room.2) uid "failed_to_choose_word"] ++ closeEvents).

Section Rotation.

(** [selectDrawerAndStartWordChoice(io, room)] picks the next drawer and draws
    the word options from the word catalogue with [Math.random]; the catalogue
    is an external collaborator, so the function is a parameter here and every
    statement below holds whatever it does. *)
Variable selectDrawerAndStartWordChoice : Store -> RoomInst -> Store * list Event.

Definition continueRotation (st : Store) (room : option RoomInst) : Store * list Event :=
  match room with
  | Some r => selectDrawerAndStartWordChoice st r
  | None => (st, [])
  end.

(** The steps shared by the two handlers of the word-choice timeout, once the
    drawer's row is at hand: lower [eliminationCount] (not below 0), clear
    [isDrawer], announce the skip, then either remove the participant or go
    back to [selecting_drawer] through [transitionPhase]. *)
Definition skipDrawer (st : Store) (roomId_ : Z) (participant : ParticipantInst)
    : Store * list Event :=
  let newEliminationCount := Z.max 0 (eliminationCount participant.2 - 1) in
  let st1 :=
    RoomParticipant_updateById participant.1
      [P_eliminationCount newEliminationCount; P_isDrawer false] st in
  match getRoom st1 roomId_ with
  | None => (st1, [])
  | Some r =>
      let skipped := drawer_skipped (code r.2) (userId participant.2) newEliminationCount in
      if bool_decide (newEliminationCount <= 0) then
        let '(st2, removeEvents) := removeParticipantFromRoom st1 r (userId participant.2) in
        let '(st3, nextEvents) := continueRotation st2 (getRoom st2 r.1) in
        (st3, [skipped] ++ removeEvents ++ nextEvents)
      else
        let '(st2, nextRoom) :=
          transitionPhase st1 r.1 (Some "choosing_word")
            [R_roundPhase (Some "selecting_drawer"); R_currentDrawerId None;
             R_currentWord None; R_currentWordOptions None] in
        match nextRoom with
        | None => (st2, [skipped])
        | Some room1 =>
            let '(st3, nextEvents) := selectDrawerAndStartWordChoice st2 room1 in
            (st3, [skipped] ++ nextEvents)
        end
  end.

(** The callback of the [choosing_word] timer armed by [startWordChoicePhase]
    (the regular path); [nextDrawer] is the user chosen for this turn. *)
Definition choosingWordTimerCallback (st : Store) (currentRoom : RoomInst)
    (nextDrawer : Z) : Store * list Event :=
  match RoomParticipant_findOne
          (fun p => inRoom currentRoom.1 p && bool_decide (userId p = nextDrawer)) st with
  | None => selectDrawerAndStartWordChoice st currentRoom
  | Some participant => skipDrawer st currentRoom.1 participant
  end.

(** [handleChoosingWordTimeout(io, room)] (the path of a resumed timer): the
    room is first claimed by moving it to [_internal_processing]. *)
Definition handleChoosingWordTimeout (st : Store) (room : RoomInst) : Store * list Event :=
  let '(st1, affected) :=
    Room_update [R_roundPhase (Some "_internal_processing")]
      (fun k r => bool_decide (k = room.1) && bool_decide (roundPhase r = Some "choosing_word"))
      st in
  if bool_decide (affected = 0) then (st1, [])
  else
    match getRoom st1 room.1 with
    | None => (st1, [])
    | Some refreshedRoom =>
        match currentDrawerId refreshedRoom.2 with
        | None => (st1, [])
        | Some drawerId =>
            if bool_decide (drawerId = 0) then (st1, [])
            else
              match RoomParticipant_findOne
                      (fun p => inRoom refreshedRoom.1 p && bool_decide (userId p = drawerId))
                      st1 with
              | None => selectDrawerAndStartWordChoice st1 refreshedRoom
              | Some participant => skipDrawer st1 refreshedRoom.1 participant
              end
        end
    end.

(** [startDrawingPhase(io, room)]; [now] is the clock of the phase start. *)
Definition startDrawingPhase (st : Store) (room : RoomInst) (now : Z) : Store * list Event :=
  match getRoom st room.1 with
  | None => (st, [])
  | Some room0 =>
      if negb (bool_decide (roundPhase room0.2 = Some "choosing_word")) then (st, [])
      else
        let endTime := now + PHASE_DURATIONS_drawing * 1000 in
        let '(st1, claimed) :=
          transitionPhase st room0.1 (Some "choosing_word")
            [R_roundPhase (Some "drawing"); R_roundPhaseEndTime (Some endTime);
             R_roundRemainingTime (Some PHASE_DURATIONS_drawing); R_roundStartTime (Some now)] in
        match claimed with
        | None => (st1, [])
        | Some room1 =>
            let used :=
              match currentWord room1.2 with
              | Some w =>
                  if negb (bool_decide (w = "")) && negb (bool_decide (w ∈ usedWords room1.2))
                  then [R_usedWords (usedWords room1.2 ++ [w])] else []
              | None => []
              end in
            let st2 :=
              Room_save room1.1
                (used ++ [R_roundRemainingTime (Some PHASE_DURATIONS_drawing);
                          R_roundStartTime (Some now); R_roundPhaseEndTime (Some endTime)]) st1 in
            (st2, [phase_change (code room1.2) "drawing" PHASE_DURATIONS_drawing endTime 0%Qc])
        end
  end.

(** [socket.on("choose_word", ...)]. *)
Definition choose_word (st : Store) (socket : Socket) (roomId_ : Z) (word : string)
    (now : Z) : Store * list Event :=
  match Room_findByPk st roomId_ with
  | None => (st, [])
  | Some room =>
      match currentDrawerId room.2, socket_user socket with
      | Some d, Some uid =>
          if negb (bool_decide (d = uid)) then (st, [error_event (socket_id socket) "not_your_turn"])
          else if negb (bool_decide (roundPhase room.2 = Some "choosing_word"))
          then (st, [error_event (socket_id socket) "wrong_phase"])
          else
            match currentWordOptions room.2 with
            | None => (st, [error_event (socket_id socket) "invalid_word_choice"])
            | Some options =>
                if negb (bool_decide (word ∈ options))
                then (st, [error_event (socket_id socket) "invalid_word_choice"])
                else
                  let st1 :=
                    Room_save room.1 [R_currentWord (Some word); R_currentWordOptions None] st in
                  let st2 :=
                    RoomParticipant_update [P_eliminationCount 3]
                      (fun p => inRoom room.1 p && bool_decide (userId p = uid)) st1 in
                  startDrawingPhase st2 room now
            end
      | _, _ => (st, [error_event (socket_id socket) "not_your_turn"])
      end
  end.

(** ** [socket.js]: [start_game] *)

(** [readyState.areAllReady] and [readyState.clearRoom]. *)
Definition areAllReady (ready : gmap Z (gset Z)) (roomId_ : Z) (ids : list Z) : bool :=
  match ids with
  | [] => false
  | _ =>
      match ready !! roomId_ with
      | None => false
      | Some set_ => forallb (fun i => bool_decide (i ∈ set_)) ids
      end
  end.

Definition clearRoom (ready : gmap Z (gset Z)) (roomId_ : Z) : gmap Z (gset Z) :=
  delete roomId_ ready.

(** The loop that charges the entry: the participants are the rows read
    before the loop; the user is read anew at each turn.  The result is the
    store and, when the loop returns early, the name of the user who lacks
    the coins. *)
Fixpoint deductEntries (entryCost : Z) (ps : list ParticipantInst) (st : Store)
    : Store * option string :=
  match ps with
  | [] => (st, None)
  | participant :: rest =>
      match users st !! userId participant.2 with
      | None => deductEntries entryCost rest st
      | Some user =>
          if hasPaidEntry participant.2 then deductEntries entryCost rest st
          else if bool_decide (coins user < entryCost) then (st, Some (name user))
          else
            let st1 := addCoins st (userId participant.2) (- entryCost) "game_entry" in
            let st2 := RoomParticipant_save participant.1 [P_hasPaidEntry true] st1 in
            deductEntries entryCost rest st2
      end
  end.

(** [startNewRound(io, room)]. *)
Definition startNewRound (st : Store) (room : RoomInst) : Store * list Event :=
  let participants_ :=
    RoomParticipant_findAll (fun p => inRoom room.1 p && isActive p) st in
  if bool_decide (Z.of_nat (length participants_) < 2) then
    (st, [clear_chat (code room.2); error_event (code room.2) "not_enough_players"])
  else
    let st1 :=
      RoomParticipant_update [P_hasGuessedThisRound false; P_isDrawer false]
        (inRoom room.1) st in
    let '(st2, events) := selectDrawerAndStartWordChoice st1 room in
    (st2, [clear_chat (code room.2)] ++ events).

(** [emitToUser(io, userId, "error", ...)] for each active participant. *)
Definition notifyMissingRoom (st : Store) (sessions : gmap Z string) (roomId_ : Z)
    : list Event :=
  omap (fun p => if bool_decide (userId p.2 = 0) then None
                 else match sessions !! userId p.2 with
                      | Some s => if bool_decide (s = "") then None
                                  else Some (error_event s "room_not_found")
                      | None => None
                      end)
    (RoomParticipant_findAll (fun p => inRoom roomId_ p && isActive p) st).

(** [socket.on("start_game", ...)].  The process-wide ready sets are part of
    the state of the handler. *)
Definition start_game (st : Store) (ready : gmap Z (gset Z)) (sessions : gmap Z string)
    (socket : Socket) (roomCode : option string) (roomId_ : option Z)
    : Store * gmap Z (gset Z) * list Event :=
  let fail := fun msg => (st, ready, [error_event (socket_id socket) msg]) in
  match resolveRoom st roomCode roomId_ with
  | None =>
      (st, ready,
       [error_event (socket_id socket) "room_not_found"]
       ++ match roomId_ with Some k => notifyMissingRoom st sessions k | None => [] end)
  | Some room =>
      match authenticatedUser socket with
      | None => fail "not_authenticated"
      | Some uid =>
          if negb (bool_decide (ownerId room.2 = uid)) then fail "only_owner_can_start"
          else if negb (bool_decide (status room.2 = "lobby"))
                  && negb (bool_decide (status room.2 = "waiting"))
          then fail "game_already_started"
          else
            let participants_ :=
              RoomParticipant_findAll (fun p => inRoom room.1 p && isActive p) st in
            if bool_decide (Z.of_nat (length participants_) < 2) then fail "not_enough_players"
            else
              let nonOwnerIds :=
                map (fun p => userId p.2)
                  (List.filter (fun p => negb (bool_decide (userId p.2 = ownerId room.2)))
                     participants_) in
              if negb (bool_decide (length nonOwnerIds = 0%nat))
                 && negb (areAllReady ready room.1 nonOwnerIds)
              then fail "not_all_ready"
              else
                let ready1 := clearRoom ready room.1 in
                let count := fun t =>
                  Z.of_nat (length (List.filter (fun p => bool_decide (team p.2 = Some t))
                                      participants_)) in
                if isTeamMode room.2
                   && (bool_decide (count "orange" < 2) || bool_decide (count "blue" < 2))
                then (st, ready1, [error_event (socket_id socket) "both_teams_need_players"])
                else
                  let entryCost :=
                    calculateEntryCost (entryPoints room.2) (voiceEnabled room.2) in
                  match deductEntries entryCost participants_ st with
                  | (st1, Some _) =>
                      (st1, ready1, [error_event (socket_id socket) "insufficient_coins"])
                  | (st1, None) =>
                      let changed :=
                        [R_status "playing"; R_currentRound 1; R_drawnUserIds [];
                         R_roundPhase None; R_currentDrawerId None; R_currentWord None;
                         R_currentWordOptions None; R_roundPhaseEndTime None;
                         R_roundRemainingTime None] in
                      let st2 := Room_save room.1 changed st1 in
                      let room1 := (room.1, applyRoomFields changed room.2) in
                      let '(st3, events) := startNewRound st2 room1 in
                      (st3, ready1, [game_started (code room.2) entryCost] ++ events)
                  end
      end
  end.

End Rotation.

(** ** Vocabulary of the statements *)


(** The row of the user in the room, as [submit_guess] reads it. *)
Definition guesserRow (st : Store) (room : RoomInst) (uid : Z) : option ParticipantInst :=
  RoomParticipant_findOne (fun p => inRoom room.1 p && bool_decide (userId p = uid)) st.

(** C6 as it is worded: in team mode every guess of a participant who is not
    on the drawer's team is answered by [wrong_team] and changes nothing. *)
Definition offTeamGuessAnsweredWrongTeam : Prop :=
  forall st socket roomCode roomId_ guess clk room uid p,
    resolveRoom st roomCode roomId_ = Some room ->
    isTeamMode room.2 = true ->
    authenticatedUser socket = Some uid ->
    guesserRow st room uid = Some p ->
    onDrawersTeam st room p.2 = false ->
    submit_guess st socket roomCode roomId_ guess clk
    = (st, [guess_result (socket_id socket) false "wrong_team"]).



(** The row after the team award. *)
Definition credited (reward now : Z) (p : Participant) : Participant :=
  applyParticipantFields
    [P_score (score p + Qc_of_Z reward)%Qc; P_points_updated_at (Some now);
     P_hasGuessedThisRound true] p.


(** [a] is ranked no later than [b]: a higher score, or the same score
    reached no later ([points_updated_at], a missing stamp counting as 0). *)
Definition ranksBefore (a b : ParticipantInst) : Prop :=
  (score b.2 < score a.2)%Qc \/ (score a.2 = score b.2 /\ timeOf a.2 <= timeOf b.2).

(** The coins of the places in free-for-all mode, as C8 states them. *)
Definition soloCoins (entry : Z) (n : nat) : list Z :=
  match n with
  | 0%nat => []
  | 1%nat => [entry * 3]
  | 2%nat => [entry * 2; 0]
  | S (S (S m)) => [entry * 3; entry * 2; entry * 1] ++ repeat 0 m
  end.

(** A user credited with [amount] coins. *)
Definition creditedUser (amount : Z) (u : User) : User :=
  Build_User (name u) (coins u + amount).










(** The payment of one turn of the reward loop: nothing is booked for an
    amount that is not positive. *)
Definition payout (st : Store) (uid amount : Z) (reason : string) : Store :=
  if bool_decide (0 < amount) then addCoins st uid amount reason else st.


(** ** [userSocketMap.js] and the connection bookkeeping of [socket.js] *)

Module Session.

(** [null] and [undefined] user ids are [None]. *)
Definition getSocketIdForUser (m : gmap Z string) (uid : option Z) : option string :=
  match uid with
  | None => None
  | Some u => m !! u
  end.

Definition setSocketForUser (m : gmap Z string) (uid : option Z) (socketId_ : string)
    : gmap Z string :=
  match uid with
  | None => m
  | Some u => <[u := socketId_]> m
  end.

Definition deleteUser (m : gmap Z string) (uid : option Z) : gmap Z string :=
  match uid with
  | None => m
  | Some u => delete u m
  end.

(** The state of the session layer: the user→socket map, the registry
    [io.sockets.sockets] with the [socket.userId] of each connected socket,
    and the sockets that have left the registry while their [disconnect]
    handler has not run yet. *)
Record State : Type := Build_State {
  userSocketMap : gmap Z string;
  sockets : gmap string (option Z);
  closing : gmap string (option Z)
}.

Definition initial : State := Build_State ∅ ∅ ∅.

(** A truthy [socket.userId] / [socket.user?.id]. *)
Definition truthyId (uid : option Z) : option Z :=
  match uid with
  | Some u => if bool_decide (u = 0) then None else Some u
  | None => None
  end.

(** The part of the [disconnect] handler that maintains the map: the entry is
    removed only if it is still this socket. *)
Definition onDisconnect (m : gmap Z string) (socketId_ : string) (socketUserId : option Z)
    : gmap Z string :=
  match truthyId socketUserId with
  | Some u =>
      if bool_decide (getSocketIdForUser m (Some u) = Some socketId_)
      then deleteUser m (Some u) else m
  | None => m
  end.

(** [oldSocket.disconnect(true)]: the socket leaves the registry and its
    [disconnect] handler runs at once. *)
Definition forceDisconnect (st : State) (socketId_ : string) : State :=
  match sockets st !! socketId_ with
  | Some oldUserId =>
      Build_State (onDisconnect (userSocketMap st) socketId_ oldUserId)
        (delete socketId_ (sockets st)) (closing st)
  | None => st
  end.

(** [io.on("connection", socket => ...)] for a socket that has just entered
    the registry; [user] is [socket.user?.id]. *)
Definition onConnection (st : State) (socketId_ : string) (user : option Z) : State :=
  match truthyId user with
  | Some uid =>
      let st0 :=
        Build_State (userSocketMap st) (<[socketId_ := None]> (sockets st)) (closing st) in
      let st1 :=
        match getSocketIdForUser (userSocketMap st0) (Some uid) with
        | Some prevSocketId =>
            if negb (bool_decide (prevSocketId = "")) && negb (bool_decide (prevSocketId = socketId_))
            then forceDisconnect st0 prevSocketId
            else st0
        | None => st0
        end in
      Build_State (setSocketForUser (userSocketMap st1) (Some uid) socketId_)
        (<[socketId_ := Some uid]> (sockets st1)) (closing st1)
  | None =>
      Build_State (userSocketMap st) (<[socketId_ := None]> (sockets st)) (closing st)
  end.

(** The moves of the environment: a client connects with a fresh socket id;
    a connection drops (the socket leaves the registry, its handler is still
    to run); the [disconnect] handler of a dropped socket fires. *)
Inductive step : State -> State -> Prop :=
  | step_connect st socketId_ user :
      socketId_ <> "" ->
      sockets st !! socketId_ = None ->
      closing st !! socketId_ = None ->
      step st (onConnection st socketId_ user)
  | step_drop st socketId_ uid :
      sockets st !! socketId_ = Some uid ->
      step st (Build_State (userSocketMap st) (delete socketId_ (sockets st))
                 (<[socketId_ := uid]> (closing st)))
  | step_fire st socketId_ uid :
      closing st !! socketId_ = Some uid ->
      step st (Build_State (onDisconnect (userSocketMap st) socketId_ uid)
                 (sockets st) (delete socketId_ (closing st))).

Inductive reachable : State -> Prop :=
  | reachable_initial : reachable initial
  | reachable_step st st' : reachable st -> step st st' -> reachable st'.

(** The invariant of the session layer: every connected socket that carries
    a user id is the socket registered for that user; registered ids are not
    empty; a socket is never both connected and awaiting its handler. *)
Record invariant (st : State) : Prop := Build_invariant {
  inv_registered :
    forall s u, sockets st !! s = Some (Some u) -> u <> 0 /\ userSocketMap st !! u = Some s;
  inv_nonempty : forall u s, userSocketMap st !! u = Some s -> s <> "" /\ u <> 0;
  inv_disjoint : forall s, is_Some (sockets st !! s) -> closing st !! s = None;
  inv_known :
    forall u s, userSocketMap st !! u = Some s ->
                sockets st !! s = Some (Some u) \/ closing st !! s = Some (Some u)
}.

End Session.

(** ** Example stores

    The room of scenario E1 (three players, free-for-all) during the drawing
    phase of user 1, and a team room with two players per team. *)
Definition mkRoom (code_ mode : string) (phase : option string) (word : option string)
    (drawer : option Z) (endTime : option Z) : Room :=
  Build_Room code_ 1 mode 250 60 20 false "playing" word [] None drawer 1 (Some 0)
    phase endTime (Some 80) [].

Definition mkParticipant (room_ user_ : Z) (team_ : option string) (drawer_ : bool)
    (score_ : Z) : Participant :=
  Build_Participant room_ user_ team_ drawer_ true (Qc_of_Z score_) None false true 3 None.

Definition exampleUsers : gmap Z User :=
  list_to_map [(1, Build_User "A" 1000); (2, Build_User "B" 1000);
               (3, Build_User "C" 1000); (4, Build_User "D" 1000)].

Definition soloStore : Store :=
  Build_Store
    (list_to_map [(1, mkRoom "ABCDE" "1v1" (Some "drawing") (Some "tree") (Some 1) (Some 80000))])
    (list_to_map [(11, mkParticipant 1 1 None true 0);
                  (12, mkParticipant 1 2 None false 0);
                  (13, mkParticipant 1 3 None false 0)])
    exampleUsers [].

Definition teamStore : Store :=
  Build_Store
    (list_to_map [(2, mkRoom "TEAMS" "team_vs_team" (Some "drawing") (Some "tree") (Some 1) (Some 80000))])
    (list_to_map [(21, mkParticipant 2 1 (Some "blue") true 0);
                  (22, mkParticipant 2 2 (Some "orange") false 0);
                  (23, mkParticipant 2 3 (Some "blue") false 0);
                  (24, mkParticipant 2 4 (Some "orange") false 0)])
    exampleUsers [].

Definition clockAt (t : Z) : GuessClock := Build_GuessClock t t t t t.

Definition sessionExample : Session.State :=
  Session.onConnection (Session.onConnection Session.initial "s1" (Some 7)) "s2" (Some 7).

(** A free-for-all room whose drawer (user 1, [eliminationCount] 3) is
    choosing a word. *)
Definition choosingRoom : Room :=
  Build_Room "WORDS" 1 "1v1" 250 60 20 false "playing" None []
    (Some ["apple"; "banana"; "cat"]) (Some 1) 1 None
    (Some "choosing_word") (Some 10000) (Some 10) [1].

Definition choosingStore : Store :=
  Build_Store
    (list_to_map [(3, choosingRoom)])
    (list_to_map [(31, mkParticipant 3 1 None true 0);
                  (32, mkParticipant 3 2 None false 0);
                  (33, mkParticipant 3 3 None false 0)])
    exampleUsers [].

(** The free-for-all room after user 2 guessed at 30 s (7 points). *)
Definition guessedParticipant (room_ user_ : Z) (score_ stamp : Z) : Participant :=
  Build_Participant room_ user_ None false true (Qc_of_Z score_) (Some stamp) true true 3 None.

Definition soloGuessedStore : Store :=
  Build_Store
    (list_to_map [(1, mkRoom "ABCDE" "1v1" (Some "drawing") (Some "tree") (Some 1) (Some 80000))])
    (list_to_map [(11, mkParticipant 1 1 None true 0);
                  (12, guessedParticipant 1 2 7 30000);
                  (13, mkParticipant 1 3 None false 0)])
    exampleUsers [].

(** The same room at the end of a game: users 2 and 3 are tied at 40 points,
    user 3 having reached them first; user 1 has 62. *)
Definition rankedStore : Store :=
  Build_Store
    (list_to_map [(1, mkRoom "ABCDE" "1v1" (Some "reveal") (Some "tree") (Some 1) (Some 87000))])
    (list_to_map [(11, guessedParticipant 1 1 62 80000);
                  (12, guessedParticipant 1 2 40 70000);
                  (13, guessedParticipant 1 3 40 50000)])
    exampleUsers [].

(** The team room while the blue drawer (user 1) is still choosing a word. *)
Definition teamChoosingStore : Store :=
  Build_Store
    (list_to_map [(2, mkRoom "TEAMS" "team_vs_team" (Some "choosing_word") None (Some 1) (Some 10000))])
    (list_to_map [(21, mkParticipant 2 1 (Some "blue") true 0);
                  (22, mkParticipant 2 2 (Some "orange") false 0);
                  (23, mkParticipant 2 3 (Some "blue") false 0);
                  (24, mkParticipant 2 4 (Some "orange") false 0)])
    exampleUsers [].

(** A lobby of three players who have not paid the entry of 250; user 5,
    whose row the loop reaches last, owns 10 coins. *)
Definition lobbyRoom : Room :=
  Build_Room "LOBBY" 1 "1v1" 250 60 20 false "lobby" None [] None None 0 None None None (Some 80) [].

Definition unpaidParticipant (room_ user_ : Z) : Participant :=
  Build_Participant room_ user_ None false true 0%Qc None false false 3 None.

Definition lobbyStore : Store :=
  Build_Store
    (list_to_map [(4, lobbyRoom)])
    (list_to_map [(41, unpaidParticipant 4 1); (42, unpaidParticipant 4 5);
                  (43, unpaidParticipant 4 2)])
    (list_to_map [(1, Build_User "A" 1000); (2, Build_User "B" 1000); (5, Build_User "E" 10)])
    [].

Definition lobbyReady : gmap Z (gset Z) := {[ 4 := {[ 2; 5 ]} ]}.

(** A rotation that does nothing, for the examples. *)
Definition noRotation (st : Store) (room : RoomInst) : Store * list Event := (st, []).

(** * Verification *)

(** ** Store lemmas *)

Lemma Room_update_lookup upd cond st k :
  rooms (Room_update upd cond st).1 !! k
  = (fun r => if cond k r then applyRoomFields upd r else r) <$> rooms st !! k.
Proof.
  unfold Room_update. simpl. rewrite map_lookup_imap.
  destruct (rooms st !! k); reflexivity.
Qed.

Lemma Room_update_count_zero upd cond st :
  (Room_update upd cond st).2 = 0 ->
  forall k r, rooms st !! k = Some r -> cond k r = false.
Proof.
  unfold Room_update. simpl. intros Hc k r Hk.
  destruct (cond k r) eqn:E; [|reflexivity].
  assert (Hin : In (k, r) (List.filter (fun kr => cond kr.1 kr.2) (map_to_list (rooms st)))).
  { apply filter_In. split; [|exact E].
    apply list_elem_of_In, elem_of_map_to_list, Hk. }
  destruct (List.filter _ _); [destruct Hin | simpl in Hc; lia].
Qed.

Lemma Room_update_count_pos upd cond st k r :
  rooms st !! k = Some r -> cond k r = true -> (Room_update upd cond st).2 <> 0.
Proof.
  intros Hk E Hc. pose proof (Room_update_count_zero _ _ _ Hc k r Hk). congruence.
Qed.

Lemma filter_all_false {A} (f : A -> bool) (l : list A) :
  (forall x, In x l -> f x = false) -> List.filter f l = [].
Proof.
  induction l as [|x l IH]; intros H; [reflexivity|]. simpl.
  rewrite (H x (or_introl eq_refl)). apply IH. intros y Hy. apply H. right. exact Hy.
Qed.

Lemma Room_update_count_none upd cond st :
  (forall k r, rooms st !! k = Some r -> cond k r = false) ->
  (Room_update upd cond st).2 = 0.
Proof.
  intros H. unfold Room_update. simpl. rewrite filter_all_false; [reflexivity|].
  intros [k r] Hin. simpl. apply H.
  apply elem_of_map_to_list, list_elem_of_In, Hin.
Qed.

Lemma Room_update_unchanged upd cond st :
  (forall k r, rooms st !! k = Some r -> cond k r = false) ->
  (Room_update upd cond st).1 = st.
Proof.
  intros H. destruct st as [rs ps us ts]. unfold Room_update, withRooms. simpl in *.
  f_equal. apply map_eq. intros k. rewrite map_lookup_imap.
  destruct (rs !! k) as [r|] eqn:E; [|reflexivity]. simpl. rewrite (H k r E). reflexivity.
Qed.

Lemma Room_update_single upd cond st k r :
  rooms st !! k = Some r -> cond k r = true ->
  (forall k' r', rooms st !! k' = Some r' -> k' <> k -> cond k' r' = false) ->
  (Room_update upd cond st).1 = withRooms st (<[k := applyRoomFields upd r]> (rooms st)).
Proof.
  intros Hk Hc Ho. destruct st as [rs ps us ts]. unfold Room_update, withRooms. simpl in *.
  f_equal. apply map_eq. intros k'. rewrite map_lookup_imap.
  destruct (decide (k' = k)) as [->|Hne].
  - rewrite lookup_insert_eq, Hk. simpl. rewrite Hc. reflexivity.
  - rewrite lookup_insert_ne by congruence.
    destruct (rs !! k') as [r'|] eqn:E; [|reflexivity]. simpl. rewrite (Ho k' r' E Hne). reflexivity.
Qed.

(** *** [transitionPhase]: the three outcomes *)

Lemma transitionPhase_hit st roomId fromPhase updates r :
  rooms st !! roomId = Some r -> roundPhase r = fromPhase ->
  transitionPhase st roomId fromPhase updates
  = (withRooms st (<[roomId := applyRoomFields updates r]> (rooms st)),
     Some (roomId, applyRoomFields updates r)).
Proof.
  intros Hk Hp. unfold transitionPhase.
  set (cond := fun (k : Z) (r0 : Room) =>
                 bool_decide (k = roomId) && bool_decide (roundPhase r0 = fromPhase)).
  destruct (Room_update updates cond st) as [st1 n] eqn:E.
  assert (E1 : st1 = (Room_update updates cond st).1) by (rewrite E; reflexivity).
  assert (E2 : n = (Room_update updates cond st).2) by (rewrite E; reflexivity).
  assert (Hc : cond roomId r = true).
  { unfold cond. rewrite !bool_decide_eq_true_2 by done. reflexivity. }
  rewrite bool_decide_eq_false_2
    by (rewrite E2; eapply Room_update_count_pos; eauto).
  rewrite E1, (Room_update_single updates cond st roomId r Hk Hc).
  - unfold getRoom, Room_findByPk. simpl. rewrite lookup_insert_eq. reflexivity.
  - intros k' r' _ Hne. unfold cond. rewrite bool_decide_eq_false_2 by done. reflexivity.
Qed.

Lemma transitionPhase_miss st roomId fromPhase updates :
  (forall r, rooms st !! roomId = Some r -> roundPhase r <> fromPhase) ->
  transitionPhase st roomId fromPhase updates = (st, None).
Proof.
  intros Hp. unfold transitionPhase.
  set (cond := fun (k : Z) (r0 : Room) =>
                 bool_decide (k = roomId) && bool_decide (roundPhase r0 = fromPhase)).
  destruct (Room_update updates cond st) as [st1 n] eqn:E.
  assert (E1 : st1 = (Room_update updates cond st).1) by (rewrite E; reflexivity).
  assert (E2 : n = (Room_update updates cond st).2) by (rewrite E; reflexivity).
  assert (Hall : forall k r0, rooms st !! k = Some r0 -> cond k r0 = false).
  { intros k r0 Hk0. unfold cond. destruct (decide (k = roomId)) as [->|Hne].
    - rewrite (bool_decide_eq_false_2 _ (Hp r0 Hk0)). apply andb_false_r.
    - rewrite bool_decide_eq_false_2 by done. reflexivity. }
  rewrite bool_decide_eq_true_2
    by (rewrite E2; apply Room_update_count_none; exact Hall).
  rewrite E1, (Room_update_unchanged _ _ _ Hall). reflexivity.
Qed.

(** ** C1: compare-and-update of the phase *)

(** C1. For every call [transitionPhase roomId fromPhase updates] on a store
    that holds the room row [r]: if the current [roundPhase] of the row equals
    [fromPhase], the updates are applied to that row (and to no other) and the
    updated record is returned; otherwise the store is left exactly as it was
    and the result is [None] (null). *)
Theorem transitionPhase_compare_and_update st roomId fromPhase updates r :
  rooms st !! roomId = Some r ->
  (roundPhase r = fromPhase ->
     transitionPhase st roomId fromPhase updates
     = (withRooms st (<[roomId := applyRoomFields updates r]> (rooms st)),
        Some (roomId, applyRoomFields updates r)))
  /\ (roundPhase r <> fromPhase ->
     transitionPhase st roomId fromPhase updates = (st, None)).
Proof.
  intros Hk. split; intros Hp.
  - by apply transitionPhase_hit.
  - apply transitionPhase_miss. intros r' Hr'. congruence.
Qed.

(** ** C5: single session per user *)

Module SessionFacts.
Import Session.

Lemma truthyId_Some uid u : truthyId uid = Some u -> uid = Some u /\ u <> 0.
Proof.
  unfold truthyId. destruct uid as [v|]; [|discriminate].
  case_bool_decide; [discriminate|]. intros [= ->]. done.
Qed.

Lemma truthyId_of u : u <> 0 -> truthyId (Some u) = Some u.
Proof. intros H. unfold truthyId. rewrite bool_decide_eq_false_2 by done. done. Qed.

Lemma onDisconnect_lookup m s uid u :
  onDisconnect m s uid !! u
  = if bool_decide (truthyId uid = Some u /\ m !! u = Some s) then None else m !! u.
Proof.
  unfold onDisconnect. destruct (truthyId uid) as [v|] eqn:E.
  - simpl. case_bool_decide as H1.
    + simpl. destruct (decide (v = u)) as [->|Hne].
      * rewrite lookup_delete_eq. rewrite bool_decide_eq_true_2; done.
      * rewrite lookup_delete_ne by done.
        rewrite bool_decide_eq_false_2; [done|]. intros [[=] _]. done.
    + case_bool_decide as H2; [|done]. destruct H2 as [[= ->] H2]. congruence.
  - rewrite bool_decide_eq_false_2; [done|]. intros [[=] _].
Qed.

Lemma invariant_initial : invariant initial.
Proof. split; simpl; intros *; rewrite ?lookup_empty; done. Qed.

Ltac map_cases :=
  repeat match goal with
  | |- context [<[?a := _]> _ !! ?b] =>
      destruct (decide (a = b)) as [?|?];
      [subst; rewrite ?lookup_insert_eq in * | rewrite ?lookup_insert_ne in * by done]
  | H : context [<[?a := _]> _ !! ?b] |- _ =>
      destruct (decide (a = b)) as [?|?];
      [subst; rewrite ?lookup_insert_eq in * | rewrite ?lookup_insert_ne in * by done]
  | |- context [delete ?a _ !! ?b] =>
      destruct (decide (a = b)) as [?|?];
      [subst; rewrite ?lookup_delete_eq in * | rewrite ?lookup_delete_ne in * by done]
  | H : context [delete ?a _ !! ?b] |- _ =>
      destruct (decide (a = b)) as [?|?];
      [subst; rewrite ?lookup_delete_eq in * | rewrite ?lookup_delete_ne in * by done]
  end.

(** Registering socket [s] for user [u] on top of a state in which no other
    connected socket carries [u]. *)
Lemma invariant_register m socks cl s u :
  s <> "" -> u <> 0 -> cl !! s = None ->
  (forall s' v, s' <> s -> socks !! s' = Some (Some v) -> v <> 0 /\ v <> u /\ m !! v = Some s') ->
  (forall v s', v <> u -> m !! v = Some s' ->
     s' <> "" /\ v <> 0 /\ s' <> s
     /\ (socks !! s' = Some (Some v) \/ cl !! s' = Some (Some v))) ->
  (forall s', s' <> s -> is_Some (socks !! s') -> cl !! s' = None) ->
  invariant (Build_State (<[u := s]> m) (<[s := Some u]> socks) cl).
Proof.
  intros Hs Hu Hcl Hreg Hmap Hdis. split; simpl.
  - intros s' v H. destruct (decide (s' = s)) as [->|Hn].
    + rewrite lookup_insert_eq in H. simplify_eq. by rewrite lookup_insert_eq.
    + rewrite lookup_insert_ne in H by done.
      destruct (Hreg _ _ Hn H) as (? & ? & ?). by rewrite lookup_insert_ne.
  - intros v s' H. destruct (decide (v = u)) as [->|Hn].
    + rewrite lookup_insert_eq in H. split; congruence.
    + rewrite lookup_insert_ne in H by done. by destruct (Hmap _ _ Hn H) as (? & ? & ? & ?).
  - intros s' [x Hx]. destruct (decide (s' = s)) as [->|Hn]; [done|].
    rewrite lookup_insert_ne in Hx by done. eauto.
  - intros v s' H. destruct (decide (v = u)) as [->|Hn].
    + rewrite lookup_insert_eq in H. simplify_eq. rewrite lookup_insert_eq. by left.
    + rewrite lookup_insert_ne in H by done.
      destruct (Hmap _ _ Hn H) as (? & ? & ? & ?). by rewrite lookup_insert_ne.
Qed.

Lemma invariant_connection st s user :
  s <> "" -> sockets st !! s = None -> closing st !! s = None ->
  invariant st -> invariant (onConnection st s user).
Proof.
  intros Hs Hfresh Hcl [Hreg Hne Hdis Hkn]. unfold onConnection.
  destruct (truthyId user) as [uid|] eqn:Eu.
  - apply truthyId_Some in Eu as [-> Hu]. simpl.
    assert (Hfresh_map : forall v, userSocketMap st !! v <> Some s).
    { intros v Hv. destruct (Hkn _ _ Hv); congruence. }
    destruct (userSocketMap st !! uid) as [prev|] eqn:Eprev; simpl.
    + assert (Hprev : prev <> "") by (by eapply Hne).
      assert (Hps : prev <> s) by (intros ->; by eapply Hfresh_map).
      rewrite (bool_decide_eq_false_2 (prev = "")) by done.
      rewrite (bool_decide_eq_false_2 (prev = s)) by done. simpl.
      unfold forceDisconnect. simpl. rewrite lookup_insert_ne by done.
      destruct (sockets st !! prev) as [oldUid|] eqn:Eold; simpl.
      *         replace (<[s:=Some uid]> (delete prev (<[s:=None]> (sockets st))))
          with (<[s:=Some uid]> (delete prev (sockets st))).
        2:{ apply map_eq. intros k. map_cases; done. }
        apply invariant_register; try done.
        -- intros s' v Hn H. map_cases; [done|]. destruct (Hreg _ _ H) as [? H'].
           split; [done|]. split; [congruence|].
           rewrite onDisconnect_lookup. rewrite bool_decide_eq_false_2; [done|].
           intros [_ ?]. congruence.
        -- intros v s' Hn H. rewrite onDisconnect_lookup in H. case_bool_decide; [done|].
           destruct (Hne _ _ H). split; [done|]. split; [done|].
           split; [intros ->; by eapply Hfresh_map|].
           destruct (Hkn _ _ H) as [Hl|Hr]; [|by right]. left.
           map_cases; [|done]. exfalso.
           destruct (Hkn _ _ Eprev) as [Hl'|Hr']; [congruence|].
           rewrite Hdis in Hr'; [done|eauto].
        -- intros s' Hn [x Hx]. map_cases; [done|]. eauto.
      * replace (<[s:=Some uid]> (<[s:=None]> (sockets st)))
          with (<[s:=Some uid]> (sockets st)).
        2:{ apply map_eq. intros k. map_cases; done. }
        apply invariant_register; try done.
        -- intros s' v Hn H. destruct (Hreg _ _ H) as [? H']. split; [done|]. split; [|done].
           intros ->. congruence.
        -- intros v s' Hn H. destruct (Hne _ _ H). split; [done|]. split; [done|].
           split; [intros ->; by eapply Hfresh_map|]. eauto.
        -- intros s' Hn Hx. eauto.
    + replace (<[s:=Some uid]> (<[s:=None]> (sockets st)))
        with (<[s:=Some uid]> (sockets st)).
      2:{ apply map_eq. intros k. map_cases; done. }
      apply invariant_register; try done.
      * intros s' v Hn H. destruct (Hreg _ _ H) as [? H']. split; [done|]. split; [|done].
        intros ->. congruence.
      * intros v s' Hn H. destruct (Hne _ _ H). split; [done|]. split; [done|].
           split; [intros ->; by eapply Hfresh_map|]. eauto.
      * intros s' Hn Hx. eauto.
  - split; simpl.
    + intros s' u H. map_cases; [done|]. eauto.
    + eauto.
    + intros s' [x Hx]. map_cases; [done|]. eauto.
    + intros u s' H. destruct (Hkn _ _ H) as [Hl|Hr]; [|by right]. left.
      map_cases; [congruence|done].
Qed.

Lemma invariant_step st st' : invariant st -> step st st' -> invariant st'.
Proof.
  intros Hinv Hstep. destruct Hstep as [st s user Hs Hf Hc | st s uid Hs | st s uid Hs].
  - by apply invariant_connection.
  - destruct Hinv as [Hreg Hne Hdis Hkn]. split; simpl.
    + intros s' u H. destruct (decide (s = s')) as [->|Hn].
      * by rewrite lookup_delete_eq in H.
      * rewrite lookup_delete_ne in H by done. eauto.
    + eauto.
    + intros s' [x Hx]. destruct (decide (s = s')) as [->|Hn].
      * by rewrite lookup_delete_eq in Hx.
      * rewrite lookup_delete_ne in Hx by done. rewrite lookup_insert_ne by done. eauto.
    + intros u s' H. destruct (decide (s = s')) as [->|Hn].
      * right. rewrite lookup_insert_eq.
        destruct (Hkn _ _ H) as [Hl|Hr]; [congruence|].
        rewrite Hdis in Hr; [done|eauto].
      * rewrite lookup_delete_ne, lookup_insert_ne by done. eauto.
  - destruct Hinv as [Hreg Hne Hdis Hkn]. split; simpl.
    + intros s' u H. destruct (Hreg _ _ H) as [? H']. split; [done|].
      rewrite onDisconnect_lookup. rewrite bool_decide_eq_false_2; [done|].
      intros [_ H2]. rewrite H' in H2. injection H2 as ->.
      rewrite Hdis in Hs; [done|eauto].
    + intros u s'. rewrite onDisconnect_lookup. case_bool_decide; [done|]. eauto.
    + intros s' Hx. destruct (decide (s = s')) as [->|Hn].
      * by rewrite lookup_delete_eq.
      * rewrite lookup_delete_ne by done. eauto.
    + intros u s' H. rewrite onDisconnect_lookup in H. case_bool_decide as Hc; [done|].
      destruct (Hkn _ _ H) as [Hl|Hr]; [by left|]. right.
      destruct (decide (s = s')) as [->|Hn]; [|by rewrite lookup_delete_ne].
      exfalso. apply Hc. split; [|done].
      rewrite Hs in Hr. injection Hr as ->.
      destruct (Hne _ _ H) as [_ Hu0]. by apply truthyId_of.
Qed.

Lemma reachable_invariant st : reachable st -> invariant st.
Proof.
  induction 1 as [|st st' _ IH Hstep]; [apply invariant_initial|].
  eapply invariant_step; eauto.
Qed.

(** C5. In every reachable state of the session layer: the user→socket map
    holds at most one socket id per user; no two connected sockets carry the
    same user, and the connected socket of a user is the registered one.
    A new authenticated connection of user [u] leaves the map pointing at the
    new socket, with the previously registered socket out of the registry;
    the [disconnect] handler removes the entry of [u] exactly when it still
    equals the disconnecting socket, and otherwise leaves the map alone. *)
Theorem single_session_per_user st :
  reachable st ->
  (forall u s1 s2,
     userSocketMap st !! u = Some s1 -> userSocketMap st !! u = Some s2 -> s1 = s2)
  /\ (forall u s1 s2,
     sockets st !! s1 = Some (Some u) -> sockets st !! s2 = Some (Some u) ->
     s1 = s2 /\ userSocketMap st !! u = Some s1)
  /\ (forall s u,
     s <> "" -> sockets st !! s = None -> closing st !! s = None -> u <> 0 ->
     let st' := onConnection st s (Some u) in
     userSocketMap st' !! u = Some s
     /\ sockets st' !! s = Some (Some u)
     /\ (forall prev, userSocketMap st !! u = Some prev -> sockets st' !! prev = None))
  /\ (forall s u,
     u <> 0 ->
     (userSocketMap st !! u = Some s ->
        onDisconnect (userSocketMap st) s (Some u) = delete u (userSocketMap st))
     /\ (userSocketMap st !! u <> Some s ->
        onDisconnect (userSocketMap st) s (Some u) = userSocketMap st)).
Proof.
  intros Hr. pose proof (reachable_invariant st Hr) as [Hreg Hne Hdis Hkn].
  split; [|split; [|split]].
  - intros u s1 s2 H1 H2. congruence.
  - intros u s1 s2 H1 H2. destruct (Hreg _ _ H1) as [_ E1]. destruct (Hreg _ _ H2) as [_ E2].
    split; [congruence|done].
  - intros s u Hs Hf Hc Hu st'. subst st'.
    unfold onConnection. rewrite (truthyId_of u Hu). simpl.
    rewrite !lookup_insert_eq. split; [done|]. split; [done|].
    intros prev Hprev. rewrite Hprev.
    destruct (Hne _ _ Hprev) as [Hp _].
    assert (Hps : prev <> s) by (intros ->; destruct (Hkn _ _ Hprev); congruence).
    rewrite (bool_decide_eq_false_2 (prev = "")), (bool_decide_eq_false_2 (prev = s)) by done.
    simpl. unfold forceDisconnect. simpl. rewrite !lookup_insert_ne by done.
    destruct (sockets st !! prev) as [old|] eqn:E; simpl.
    + by rewrite lookup_delete_eq.
    + by rewrite lookup_insert_ne.
  - intros s u Hu. unfold onDisconnect. rewrite (truthyId_of u Hu). simpl. split; intros H.
    + by rewrite bool_decide_eq_true_2.
    + by rewrite bool_decide_eq_false_2.
Qed.

End SessionFacts.
Lemma transitionPhase_compare_and_update_witness :
  transitionPhase soloStore 1 (Some "drawing") [R_roundPhase (Some "reveal")]
  = (withRooms soloStore
       (<[1 := applyRoomFields [R_roundPhase (Some "reveal")]
                 (mkRoom "ABCDE" "1v1" (Some "drawing") (Some "tree") (Some 1) (Some 80000))]>
          (rooms soloStore)),
     Some (1, applyRoomFields [R_roundPhase (Some "reveal")]
                (mkRoom "ABCDE" "1v1" (Some "drawing") (Some "tree") (Some 1) (Some 80000))))
  /\ transitionPhase soloStore 1 (Some "interval") [R_roundPhase (Some "reveal")]
     = (soloStore, None).
Proof.
  destruct (transitionPhase_compare_and_update soloStore 1 (Some "drawing")
              [R_roundPhase (Some "reveal")]
              (mkRoom "ABCDE" "1v1" (Some "drawing") (Some "tree") (Some 1) (Some 80000))
              eq_refl) as [H1 _].
  destruct (transitionPhase_compare_and_update soloStore 1 (Some "interval")
              [R_roundPhase (Some "reveal")]
              (mkRoom "ABCDE" "1v1" (Some "drawing") (Some "tree") (Some 1) (Some 80000))
              eq_refl) as [_ H2].
  split; [apply H1; reflexivity | apply H2; intros E; vm_compute in E; discriminate E].
Defined.

Lemma sessionExample_reachable : Session.reachable sessionExample.
Proof.
  unfold sessionExample.
  apply (Session.reachable_step (Session.onConnection Session.initial "s1" (Some 7))).
  - apply (Session.reachable_step Session.initial); [apply Session.reachable_initial|].
    apply Session.step_connect; [done | reflexivity | reflexivity].
  - apply Session.step_connect; [done | reflexivity | reflexivity].
Qed.

Lemma single_session_per_user_witness :
  Session.reachable sessionExample
  /\ Session.userSocketMap sessionExample !! 7 = Some "s2"
  /\ (forall u s1 s2,
        Session.sockets sessionExample !! s1 = Some (Some u) ->
        Session.sockets sessionExample !! s2 = Some (Some u) ->
        s1 = s2 /\ Session.userSocketMap sessionExample !! u = Some s1).
Proof.
  split; [exact sessionExample_reachable|]. split; [reflexivity|].
  exact (proj1 (proj2 (SessionFacts.single_session_per_user sessionExample
                         sessionExample_reachable))).
Defined.
Lemma findAll_elem cond st k p :
  In (k, p) (RoomParticipant_findAll cond st) <-> participants st !! k = Some p /\ cond p = true.
Proof.
  unfold RoomParticipant_findAll. rewrite filter_In. simpl.
  rewrite <- list_elem_of_In, elem_of_map_to_list. reflexivity.
Qed.


Lemma findOne_Some cond st k p :
  RoomParticipant_findOne cond st = Some (k, p) ->
  participants st !! k = Some p /\ cond p = true.
Proof.
  unfold RoomParticipant_findOne. intros H. apply findAll_elem.
  destruct (RoomParticipant_findAll cond st) as [|x l]; [discriminate|].
  simpl in H. injection H as ->. by left.
Qed.

Lemma save_lookup k changed st k' :
  participants (RoomParticipant_save k changed st) !! k'
  = if bool_decide (k = k') then applyParticipantFields changed <$> participants st !! k'
    else participants st !! k'.
Proof.
  unfold RoomParticipant_save. simpl. case_bool_decide as E.
  - subst. by rewrite lookup_alter_eq.
  - by rewrite lookup_alter_ne.
Qed.

(** *** Frame properties: what an operation leaves alone *)

Lemma Room_update_frame upd cond st :
  participants (Room_update upd cond st).1 = participants st
  /\ users (Room_update upd cond st).1 = users st
  /\ coinTransactions (Room_update upd cond st).1 = coinTransactions st.
Proof. done. Qed.

Lemma transitionPhase_frame st k from upd :
  participants (transitionPhase st k from upd).1 = participants st
  /\ users (transitionPhase st k from upd).1 = users st
  /\ coinTransactions (transitionPhase st k from upd).1 = coinTransactions st.
Proof.
  unfold transitionPhase.
  destruct (Room_update _ _ st) as [st1 n] eqn:E.
  pose proof (Room_update_frame upd
    (fun k0 r => bool_decide (k0 = k) && bool_decide (roundPhase r = from)) st) as H.
  rewrite E in H. simpl in H. by case_bool_decide.
Qed.









(** ** C4: the drawer's reward at the end of the drawing phase *)




(** ** C9: a wrong guess changes nothing *)


(** ** C6: the team gate *)

(** C6, amended. In team mode a guess of a participant who is not on the
    current drawer's team is always rejected with a single [guess_result]
    that is not ok, and the store is unchanged: no score, no
    [hasGuessedThisRound] flag and no phase moves.  The message is
    [wrong_team] whenever the earlier gates let the guess through (the room
    is in [drawing], a word is set, the row is neither the drawer's nor
    already marked); otherwise it is the message of the earlier gate. *)
Theorem off_team_guess_rejected st socket roomCode roomId_ guess clk room uid p :
  resolveRoom st roomCode roomId_ = Some room ->
  isTeamMode room.2 = true ->
  authenticatedUser socket = Some uid ->
  guesserRow st room uid = Some p ->
  onDrawersTeam st room p.2 = false ->
  let result := submit_guess st socket roomCode roomId_ guess clk in
  result.1 = st
  /\ (exists msg, result.2 = [guess_result (socket_id socket) false msg])
  /\ (roundPhase room.2 = Some "drawing" ->
      (exists w, currentWord room.2 = Some w /\ w <> "") ->
      isDrawer p.2 = false -> hasGuessedThisRound p.2 = false ->
      result.2 = [guess_result (socket_id socket) false "wrong_team"]).
Proof.
  intros Hroom Hteam Hauth Hrow Hoff result. subst result.
  unfold submit_guess, guesserRow in *. rewrite Hroom, Hauth, Hrow, Hteam, Hoff.
  cbn [andb negb].
  split; [|split].
  - destruct (negb _); [done|]. destruct (currentWord room.2); [|done].
    case_bool_decide; [done|]. destruct (isDrawer p.2); [done|].
    by destruct (hasGuessedThisRound p.2).
  - destruct (negb _); [eauto|]. destruct (currentWord room.2); [|eauto].
    case_bool_decide; [eauto|]. destruct (isDrawer p.2); [eauto|].
    destruct (hasGuessedThisRound p.2); eauto.
  - intros Hph [w [Hw Hne]] Hd Hg. rewrite Hph, Hw, Hd, Hg.
    rewrite bool_decide_eq_true_2 by done. cbn [negb].
    by rewrite (bool_decide_eq_false_2 (w = "")).
Qed.

(** *** Reading a room *)




(** *** What the end of the drawing phase does to the participants *)




(** *** The team award *)

Lemma creditTeamMember_frame rw now st m :
  rooms (creditTeamMember rw now st m) = rooms st
  /\ users (creditTeamMember rw now st m) = users st
  /\ coinTransactions (creditTeamMember rw now st m) = coinTransactions st.
Proof. done. Qed.


Lemma foldl_credit_other rw now l st k :
  k ∉ l.*1 -> participants (foldl (creditTeamMember rw now) st l) !! k = participants st !! k.
Proof.
  revert st. induction l as [|m l IH]; intros st Hk; [done|].
  rewrite fmap_cons in Hk. cbn [foldl].
  apply not_elem_of_cons in Hk as [Hne Hk]. rewrite IH by done.
  unfold creditTeamMember. rewrite save_lookup, bool_decide_eq_false_2; done.
Qed.




Lemma teamAward_lookup_None st R t rw now k :
  participants st !! k = None ->
  participants (teamAwardTransaction st R t rw now) !! k = None.
Proof.
  intros Hk. unfold teamAwardTransaction. destruct (existsb _ _); [done|].
  rewrite foldl_credit_other; [done|].
  intros Hin. apply list_elem_of_fmap in Hin as [[k' p'] [-> Hin]].
  apply list_elem_of_In, findAll_elem in Hin as [Hk' Hc]. simpl in *. congruence.
Qed.

(** *** The gates of [submit_guess] *)



(** ** C3: the reward of a correct guess *)




(** ** C8: the final ranking of a free-for-all game *)

Section StableSort.
Context {A : Type} (gt : A -> A -> bool).

Lemma sortInsert_perm x l : Permutation (sortInsert gt x l) (x :: l).
Proof.
  induction l as [|y l IH]; simpl; [done|].
  destruct (gt x y); [|done]. rewrite IH. apply perm_swap.
Qed.

Lemma stableSort_perm l : Permutation (stableSort gt l) l.
Proof.
  induction l as [|x l IH]; simpl; [done|].
  rewrite sortInsert_perm. by constructor.
Qed.

Lemma stableSort_length l : length (stableSort gt l) = length l.
Proof. apply Permutation_length, stableSort_perm. Qed.

Hypothesis gt_asym : forall a b, gt a b = true -> gt b a = false.
Hypothesis le_trans : forall a b c, gt a b = false -> gt b c = false -> gt a c = false.

Lemma sortInsert_sorted x l :
  StronglySorted (fun a b => gt a b = false) l ->
  StronglySorted (fun a b => gt a b = false) (sortInsert gt x l).
Proof.
  induction 1 as [|y l Hs IH Hy]; simpl; [repeat constructor|].
  destruct (gt x y) eqn:E.
  - constructor; [done|].
    apply Forall_forall. intros z Hz.
    apply list_elem_of_In in Hz. rewrite sortInsert_perm in Hz.
    apply elem_of_cons in Hz as [->|Hz]; [by apply gt_asym|].
    rewrite Forall_forall in Hy. apply Hy. by apply list_elem_of_In.
  - constructor; [by constructor|].
    constructor; [done|]. eapply Forall_impl; [|exact Hy]. intros z Hz. simpl in Hz. eauto.
Qed.

Lemma stableSort_sorted l : StronglySorted (fun a b => gt a b = false) (stableSort gt l).
Proof. induction l as [|x l IH]; simpl; [constructor|]. by apply sortInsert_sorted. Qed.

End StableSort.

Lemma rankCompareGt_false a b : rankCompareGt a b = false <-> ranksBefore a b.
Proof.
  unfold rankCompareGt, ranksBefore, Qcminus.
  case_bool_decide as Hs.
  - rewrite bool_decide_eq_false. rewrite <- Qclt_minus_iff. split.
    + intros H. left. apply Qcnot_le_lt. intros Hle. apply H.
      destruct (Qcle_lt_or_eq _ _ Hle) as [?|?]; [done|]. by destruct Hs.
    + intros [H|[H _]] Hlt; [|by destruct Hs].
      by eapply Qclt_not_le; [exact H|apply Qclt_le_weak].
  - rewrite bool_decide_eq_false. split.
    + intros H. right. split; [done|lia].
    + intros [H|[_ H]]; [|lia]. rewrite Hs in H. by apply Qclt_not_eq in H.
Qed.

Lemma rankCompareGt_asym a b : rankCompareGt a b = true -> rankCompareGt b a = false.
Proof.
  intros H. apply rankCompareGt_false.
  destruct (rankCompareGt b a) eqn:E; [|by apply rankCompareGt_false].
  exfalso. revert H E. unfold rankCompareGt, Qcminus.
  repeat case_bool_decide; try done; try lia; try congruence.
  rewrite <- !Qclt_minus_iff in *. intros _ _.
  assert (Hlt : (score a.2 < score a.2)%Qc) by (eapply Qclt_trans; eauto).
  by apply Qclt_not_eq in Hlt.
Qed.

Lemma ranksBefore_trans a b c : ranksBefore a b -> ranksBefore b c -> ranksBefore a c.
Proof.
  unfold ranksBefore. intros [H1|[H1 T1]] [H2|[H2 T2]].
  - left. by eapply Qclt_trans.
  - left. by rewrite <- H2.
  - left. by rewrite H1.
  - right. split; [congruence|lia].
Qed.

Lemma stableSort_ranked l : StronglySorted ranksBefore (stableSort rankCompareGt l).
Proof.
  assert (H : StronglySorted (fun a b => rankCompareGt a b = false) (stableSort rankCompareGt l)).
  { apply stableSort_sorted; [apply rankCompareGt_asym|].
    intros a b c H1 H2. apply rankCompareGt_false.
    eapply ranksBefore_trans; by apply rankCompareGt_false. }
  induction H as [|x l' Hs IH Hx]; constructor; [done|].
  eapply Forall_impl; [|exact Hx]. intros y Hy. by apply rankCompareGt_false.
Qed.

Lemma creditedUser_0 u : creditedUser 0 u = u.
Proof. destruct u as [n c]. unfold creditedUser. simpl. f_equal. lia. Qed.

Lemma addCoins_users st uid amount reason v :
  users (addCoins st uid amount reason) !! v
  = if bool_decide (uid = v) then creditedUser amount <$> users st !! v else users st !! v.
Proof.
  unfold addCoins. simpl. case_bool_decide as E.
  - subst. by rewrite lookup_alter_eq.
  - by rewrite lookup_alter_ne.
Qed.

Lemma payout_users st uid amount reason v :
  0 <= amount ->
  users (payout st uid amount reason) !! v
  = if bool_decide (uid = v) then creditedUser amount <$> users st !! v else users st !! v.
Proof.
  intros Ha. unfold payout. case_bool_decide as Hpos.
  - apply addCoins_users.
  - assert (amount = 0) as -> by lia. case_bool_decide; [|done].
    destruct (users st !! v) as [u|]; [|done]. simpl. by rewrite creditedUser_0.
Qed.

Lemma payout_is_Some st uid amount reason v :
  is_Some (users st !! v) -> is_Some (users (payout st uid amount reason) !! v).
Proof.
  intros [u Hu]. unfold payout. case_bool_decide; [|by eexists].
  rewrite addCoins_users. case_bool_decide; rewrite Hu; by eexists.
Qed.

Lemma soloAward_exists e two acc i p rw :
  is_Some (users acc.1 !! userId p.2) ->
  soloAward e two acc (i, (p, rw))
  = (let c := if two then (if bool_decide (Z.of_nat i + 1 = 1) then e * 2 else 0) else e * rw.2 in
     (payout acc.1 (userId p.2) c (placeReason (Z.of_nat i + 1)),
      acc.2 ++ [Build_Ranking (Z.of_nat i + 1) (userId p.2) (score p.2) c None])).
Proof. intros [u Hu]. unfold soloAward, payout. cbn [fst snd]. by rewrite Hu. Qed.

Lemma imap_rest_places (rest : list ParticipantInst) (k : nat) :
  map place (imap (fun j p => Build_Ranking (Z.of_nat (j + k) + 1) (userId p.2) (score p.2) 0 None) rest)
  = map Z.of_nat (seq (S k) (length rest)).
Proof.
  revert k. induction rest as [|p rest IH]; intros k; [done|].
  cbn [imap map length seq]. f_equal; [cbn; lia|].
  rewrite <- (IH (S k)). f_equal. apply imap_ext. intros j x _. cbn. do 2 f_equal. lia.
Qed.

Lemma imap_rest_fields (rest : list ParticipantInst) (k : nat) :
  let rs := imap (fun j p => Build_Ranking (Z.of_nat (j + k) + 1) (userId p.2) (score p.2) 0 None) rest in
  map rk_userId rs = map (fun p => userId p.2) rest
  /\ map rk_score rs = map (fun p => score p.2) rest
  /\ map coinsAwarded rs = repeat 0 (length rest).
Proof.
  revert k. induction rest as [|p rest IH]; intros k; [done|].
  cbn [imap map length repeat].
  destruct (IH (S k)) as (H1 & H2 & H3). cbn zeta in *.
  assert (E : imap ((fun j p0 => Build_Ranking (Z.of_nat (j + k) + 1) (userId p0.2) (score p0.2) 0 None) ∘ S) rest
              = imap (fun j p0 => Build_Ranking (Z.of_nat (j + S k) + 1) (userId p0.2) (score p0.2) 0 None) rest).
  { apply imap_ext. intros j x _. cbn. do 2 f_equal. lia. }
  rewrite E, H1, H2, H3. done.
Qed.

Lemma creditedUser_fmap_0 (o : option User) : creditedUser 0 <$> o = o.
Proof. destruct o as [u|]; [|done]. simpl. by rewrite creditedUser_0. Qed.

Lemma soloRankings_spec st entry ps :
  (forall p, In p ps -> is_Some (users st !! userId p.2)) ->
  let sorted := stableSort rankCompareGt ps in
  let res := soloRankings st entry ps in
  map place res.2 = map Z.of_nat (seq 1 (length sorted))
  /\ map rk_userId res.2 = map (fun p => userId p.2) sorted
  /\ map rk_score res.2 = map (fun p => score p.2) sorted
  /\ map coinsAwarded res.2 = soloCoins entry (length sorted)
  /\ (0 <= entry -> NoDup (map (fun p => userId p.2) sorted) ->
      forall rk, In rk res.2 ->
        users res.1 !! rk_userId rk = creditedUser (coinsAwarded rk) <$> users st !! rk_userId rk).
Proof.
  intros Hex sorted res.
  assert (Hs : forall p, In p sorted -> is_Some (users st !! userId p.2)).
  { intros p Hp. apply Hex. eapply Permutation_in; [apply stableSort_perm | exact Hp]. }
  subst res. unfold soloRankings. fold sorted. clearbody sorted. clear Hex.
  destruct sorted as [|a [|b [|c rest]]].
  - cbn. repeat split; done.
  - cbn [combine seq soloRewards foldl length drop imap app].
    rewrite soloAward_exists by (apply Hs; by left).
    rewrite (bool_decide_eq_false_2 (1%nat = 2%nat)) by done.
    cbn. repeat split; try done.
    intros He _ rk [<-|[]]. cbn [rk_userId coinsAwarded].
    rewrite payout_users by lia. by rewrite bool_decide_eq_true_2.
  - cbn [combine seq soloRewards foldl length drop imap app].
    rewrite (soloAward_exists entry _ (st, []) 0 a) by (apply Hs; by left).
    rewrite soloAward_exists by (cbn [fst]; apply payout_is_Some, Hs; right; by left).
    rewrite (bool_decide_eq_true_2 (2%nat = 2%nat)) by done.
    change (Z.of_nat 0 + 1) with 1. change (Z.of_nat 1 + 1) with 2.
    rewrite (bool_decide_eq_true_2 (1 = 1)), (bool_decide_eq_false_2 (2 = 1)) by done.
    cbn. repeat split; try done.
    intros He Hnd rk Hrk.
    apply list.NoDup_cons in Hnd as [Hab _].
    assert (Hne : userId a.2 <> userId b.2) by (intros E; apply Hab; rewrite E; by left).
    destruct Hrk as [<-|[<-|[]]]; cbn [rk_userId coinsAwarded].
    + rewrite payout_users by lia. rewrite bool_decide_eq_false_2 by done.
      rewrite payout_users by lia. by rewrite bool_decide_eq_true_2.
    + rewrite payout_users by lia. rewrite bool_decide_eq_true_2 by done.
      rewrite payout_users by lia. rewrite bool_decide_eq_false_2 by done.
      by rewrite creditedUser_fmap_0.
  - cbn [combine seq soloRewards foldl length drop].
    rewrite (soloAward_exists entry _ (st, []) 0 a) by (apply Hs; by left).
    rewrite (soloAward_exists entry _ _ 1 b)
      by (cbn [fst]; apply payout_is_Some, Hs; right; by left).
    rewrite soloAward_exists
      by (cbn [fst]; do 2 apply payout_is_Some; apply Hs; right; right; by left).
    rewrite (bool_decide_eq_false_2 (S (S (S (length rest))) = 2%nat)) by done.
    change (Z.of_nat 0 + 1) with 1. change (Z.of_nat 1 + 1) with 2.
    change (Z.of_nat 2 + 1) with 3.
    cbn [fst snd app].
    destruct (imap_rest_fields rest 3) as (F1 & F2 & F3). cbn zeta in F1, F2, F3.
    rewrite drop_0. cbn [map]. rewrite imap_rest_places, F1, F2, F3.
    repeat split; try done.
    intros He Hnd rk Hrk. cbn [map] in Hnd.
    apply list.NoDup_cons in Hnd as [Ha Hnd]. apply list.NoDup_cons in Hnd as [Hb Hnd].
    apply list.NoDup_cons in Hnd as [Hc Hnd].
    apply not_elem_of_cons in Ha as [Hab Ha]. apply not_elem_of_cons in Ha as [Hac Ha].
    apply not_elem_of_cons in Hb as [Hbc Hb].
    assert (Hlook : forall v,
      users (payout (payout (payout st (userId a.2) (entry * 3) (placeReason 1))
                       (userId b.2) (entry * 2) (placeReason 2))
               (userId c.2) (entry * 1) (placeReason 3)) !! v
      = if bool_decide (userId c.2 = v) then creditedUser (entry * 1) <$> users st !! v
        else if bool_decide (userId b.2 = v) then creditedUser (entry * 2) <$> users st !! v
        else if bool_decide (userId a.2 = v) then creditedUser (entry * 3) <$> users st !! v
        else users st !! v).
    { intros v. rewrite !payout_users by lia.
      repeat case_bool_decide; try done; congruence. }
    rewrite Hlook. destruct Hrk as [<-|[<-|[<-|Hrk]]]; cbn [rk_userId coinsAwarded].
    + repeat case_bool_decide; try done; congruence.
    + repeat case_bool_decide; try done; congruence.
    + repeat case_bool_decide; try done; congruence.
    + apply list_elem_of_In, elem_of_lookup_imap in Hrk as (j & p & -> & Hp).
      cbn [rk_userId coinsAwarded]. rewrite creditedUser_fmap_0.
      assert (Hin : userId p.2 ∈ map (fun p0 : ParticipantInst => userId p0.2) rest).
      { apply list_elem_of_fmap. exists p. split; [done|]. by eapply list_elem_of_lookup_2. }
      repeat case_bool_decide; try done; exfalso;
        match goal with H : userId _ = userId p.2 |- _ => rewrite <- H in Hin end; done.
Qed.

(** [checkGameEnd] ends the game exactly when an active participant of the
    room has reached the target. *)
Lemma checkGameEnd_iff st room :
  (checkGameEnd st room).2 = true
  <-> exists p, In p (RoomParticipant_findAll (fun q => inRoom room.1 q && isActive q) st)
                /\ (Qc_of_Z (targetPoints room.2) <= score p.2)%Qc.
Proof.
  unfold checkGameEnd.
  assert (Hperm : Permutation (activeInRoomByRank st room.1)
                    (RoomParticipant_findAll (fun q => inRoom room.1 q && isActive q) st))
    by apply stableSort_perm.
  destruct (List.find _ _) as [p|] eqn:E; cbn [snd].
  - split; [intros _|done]. apply find_some in E as [Hin Hp].
    exists p. split; [by eapply Permutation_in|]. by apply bool_decide_eq_true_1 in Hp.
  - split; [done|]. intros (p & Hin & Hp). exfalso.
    assert (Hin' : In p (activeInRoomByRank st room.1))
      by (eapply Permutation_in; [symmetry; exact Hperm|done]).
    pose proof (find_none _ _ E p Hin') as Hn. cbn beta in Hn.
    by rewrite bool_decide_eq_true_2 in Hn.
Qed.

(** C8. At the end of a game that is not in team mode, the active
    participants of the room are ranked by score, highest first, a tie being
    won by the earlier [points_updated_at]; the ranking gives them the places
    1, 2, ..., N in that order, one participant per place.  The coins are:
    with exactly two players, twice the entry for the first and nothing for
    the second; with three or more, three times, twice and once the entry for
    the first three and nothing for the others.  With a non-negative entry
    the balance of each ranked user grows by the coins of the place. *)
Theorem solo_game_end_ranking st room :
  gameMode room.2 <> "team_vs_team" ->
  let active := RoomParticipant_findAll (fun p => inRoom room.1 p && isActive p) st in
  let entry := entryPoints room.2 in
  (forall p, In p active -> is_Some (users st !! userId p.2)) ->
  exists ranked rankings mode,
    (endGame st room).2 = [game_ended (code room.2) rankings entry mode]
    /\ Permutation ranked active
    /\ StronglySorted ranksBefore ranked
    /\ map place rankings = map Z.of_nat (seq 1 (length active))
    /\ map rk_userId rankings = map (fun p => userId p.2) ranked
    /\ map rk_score rankings = map (fun p => score p.2) ranked
    /\ (length active = 2%nat -> map coinsAwarded rankings = [entry * 2; 0])
    /\ (forall n, length active = S (S (S n)) ->
        map coinsAwarded rankings = [entry * 3; entry * 2; entry * 1] ++ repeat 0 n)
    /\ (0 <= entry -> NoDup (map (fun p => userId p.2) active) ->
        forall rk, In rk rankings ->
          users (endGame st room).1 !! rk_userId rk
          = creditedUser (coinsAwarded rk) <$> users st !! rk_userId rk).
Proof.
  intros Hmode active entry Hex.
  unfold endGame.
  set (mode := if bool_decide (gameMode room.2 = "") then "1v1" else gameMode room.2).
  assert (Hm : mode <> "team_vs_team") by (subst mode; by case_bool_decide).
  rewrite (bool_decide_eq_false_2 _ Hm).
  set (st1 := Room_save room.1 [R_status "finished"] st).
  set (final := activeInRoomByRank st1 room.1).
  assert (Hfinal : Permutation final active) by apply stableSort_perm.
  assert (Hex1 : forall p, In p final -> is_Some (users st1 !! userId p.2)).
  { intros p Hp. apply Hex. by eapply Permutation_in. }
  destruct (soloRankings_spec st1 (calculateEntryCost (entryPoints room.2) (voiceEnabled room.2))
              final Hex1) as (P1 & P2 & P3 & P4 & P5).
  cbn zeta in *.
  destruct (soloRankings st1 _ final) as [st2 rankings] eqn:Es. cbn [fst snd] in *.
  set (ranked := stableSort rankCompareGt final) in *.
  assert (Hranked : Permutation ranked active).
  { etrans; [apply stableSort_perm|done]. }
  assert (Hlen : length ranked = length active) by (by apply Permutation_length).
  exists ranked, rankings, mode.
  split; [done|]. split; [done|]. split; [apply stableSort_ranked|].
  split; [by rewrite <- Hlen|]. split; [done|]. split; [done|].
  unfold calculateEntryCost in *. fold entry in P4, P5.
  split; [|split].
  - intros H2. rewrite <- Hlen in H2. by rewrite P4, H2.
  - intros n Hn. rewrite <- Hlen in Hn. by rewrite P4, Hn.
  - intros He Hnd rk Hrk. apply P5; [done| |done].
    apply (NoDup_Permutation_proper _ _
             (Permutation_map (fun p : ParticipantInst => userId p.2) Hranked)).
    exact Hnd.
Qed.

(** ** C2: one award per team and round *)









(** *** A correct guess only touches its own room *)


(** *** A correct guess in a team room *)


(** *** One request against a room *)





Lemma credited_roomId rw now q : roomId (credited rw now q) = roomId q.
Proof. done. Qed.








(** ** C10: the entry loop of [start_game] *)






(** ** C7: the drawer who lets the word-choice timer run out *)

Lemma Room_update_hit upd cond st k r :
  rooms st !! k = Some r -> cond k r = true ->
  (forall k' r', rooms st !! k' = Some r' -> k' <> k -> cond k' r' = false) ->
  Room_update upd cond st
  = (withRooms st (<[k := applyRoomFields upd r]> (rooms st)),
     Z.of_nat (length (List.filter (fun kr => cond kr.1 kr.2) (map_to_list (rooms st))))).
Proof.
  intros Hk Hc Ho. rewrite <- (Room_update_single upd cond st k r Hk Hc Ho). done.
Qed.

(** The regular timer callback: with more than one elimination left the room
    goes back to [selecting_drawer] with drawer, word and options cleared,
    the drawer's [eliminationCount] is lowered by one, and the rotation
    continues from that room. *)
Lemma choosingWordTimerCallback_returns sel st room r nextDrawer k p :
  rooms st !! room.1 = Some r ->
  roundPhase r = Some "choosing_word" ->
  RoomParticipant_findOne
    (fun q => inRoom room.1 q && bool_decide (userId q = nextDrawer)) st = Some (k, p) ->
  1 < eliminationCount p ->
  exists st2 r2,
    choosingWordTimerCallback sel st room nextDrawer
    = (let '(st3, nextEvents) := sel st2 (room.1, r2) in
       (st3, [drawer_skipped (code r) (userId p) (eliminationCount p - 1)] ++ nextEvents))
    /\ rooms st2 !! room.1 = Some r2
    /\ roundPhase r2 = Some "selecting_drawer"
    /\ currentDrawerId r2 = None /\ currentWord r2 = None /\ currentWordOptions r2 = None
    /\ (eliminationCount <$> participants st2 !! k) = Some (eliminationCount p - 1).
Proof.
  intros Hr Hph Hp He. unfold choosingWordTimerCallback. rewrite Hp.
  unfold skipDrawer. cbn [fst snd].
  rewrite (Z.max_r 0 (eliminationCount p - 1)) by lia.
  set (st1 := RoomParticipant_updateById k _ st).
  assert (Hr1 : rooms st1 !! room.1 = Some r) by done.
  unfold getRoom, Room_findByPk. rewrite Hr1. cbn [fmap option_fmap option_map fst snd].
  rewrite (bool_decide_eq_false_2 (eliminationCount p - 1 <= 0)) by lia.
  rewrite (transitionPhase_hit st1 room.1 (Some "choosing_word") _ r Hr1 Hph).
  eexists _, _. split; [reflexivity|].
  cbn [rooms withRooms]. rewrite lookup_insert_eq. split; [done|].
  split; [done|]. split; [done|]. split; [done|]. split; [done|].
  subst st1. cbn [participants withRooms RoomParticipant_updateById withParticipants].
  rewrite lookup_alter_eq. apply findOne_Some in Hp as [-> _]. done.
Qed.

(** The handler of the resumed timer on the same state: the room has been
    moved to [_internal_processing] by the claim at the start, so the later
    [transitionPhase] from [choosing_word] finds no row; the handler returns
    with the room left in [_internal_processing], drawer and word options
    still set, and the rotation is not continued. *)
Lemma handleChoosingWordTimeout_stuck sel st room r d k p :
  rooms st !! room.1 = Some r ->
  roundPhase r = Some "choosing_word" ->
  currentDrawerId r = Some d -> d <> 0 ->
  RoomParticipant_findOne
    (fun q => inRoom room.1 q && bool_decide (userId q = d)) st = Some (k, p) ->
  1 < eliminationCount p ->
  exists st2,
    handleChoosingWordTimeout sel st room
    = (st2, [drawer_skipped (code r) (userId p) (eliminationCount p - 1)])
    /\ rooms st2 !! room.1
       = Some (applyRoomFields [R_roundPhase (Some "_internal_processing")] r)
    /\ (eliminationCount <$> participants st2 !! k) = Some (eliminationCount p - 1).
Proof.
  intros Hr Hph Hd Hd0 Hp He. unfold handleChoosingWordTimeout.
  set (cond := fun (k0 : Z) (r0 : Room) =>
                 bool_decide (k0 = room.1) && bool_decide (roundPhase r0 = Some "choosing_word")).
  assert (Hc : cond room.1 r = true)
    by (unfold cond; by rewrite !bool_decide_eq_true_2).
  assert (Ho : forall k' r', rooms st !! k' = Some r' -> k' <> room.1 -> cond k' r' = false)
    by (intros k' r' _ Hne; unfold cond; by rewrite bool_decide_eq_false_2).
  pose proof (Room_update_count_pos [R_roundPhase (Some "_internal_processing")] cond st
                room.1 r Hr Hc) as Hpos.
  rewrite (Room_update_hit _ cond st room.1 r Hr Hc Ho) in *. cbn [snd] in Hpos.
  rewrite (bool_decide_eq_false_2 _ Hpos).
  set (r1 := applyRoomFields [R_roundPhase (Some "_internal_processing")] r).
  set (st1 := withRooms st _).
  assert (Hr1 : rooms st1 !! room.1 = Some r1) by (subst st1; cbn; by rewrite lookup_insert_eq).
  unfold getRoom, Room_findByPk. rewrite Hr1. cbn [fmap option_fmap option_map fst snd].
  change (currentDrawerId r1) with (currentDrawerId r). rewrite Hd.
  rewrite (bool_decide_eq_false_2 (d = 0)) by done.
  change (RoomParticipant_findOne (fun q => inRoom room.1 q && bool_decide (userId q = d)) st1)
    with (RoomParticipant_findOne (fun q => inRoom room.1 q && bool_decide (userId q = d)) st).
  rewrite Hp. unfold skipDrawer. cbn [fst snd].
  rewrite (Z.max_r 0 (eliminationCount p - 1)) by lia.
  set (st1' := RoomParticipant_updateById k _ st1).
  assert (Hr1' : rooms st1' !! room.1 = Some r1) by done.
  unfold getRoom, Room_findByPk. rewrite Hr1'. cbn [fmap option_fmap option_map fst snd].
  rewrite (bool_decide_eq_false_2 (eliminationCount p - 1 <= 0)) by lia.
  rewrite transitionPhase_miss.
  2:{ intros r' Hr'. rewrite Hr1' in Hr'. injection Hr' as <-. done. }
  eexists. split; [reflexivity|]. split; [done|].
  subst st1' st1. cbn [participants withRooms RoomParticipant_updateById withParticipants].
  rewrite lookup_alter_eq. apply findOne_Some in Hp as [-> _]. done.
Qed.

(** The parts of the word-choice rules that both handlers share. *)

Lemma startDrawingPhase_participants st room now :
  participants (startDrawingPhase st room now).1 = participants st.
Proof.
  unfold startDrawingPhase. destruct (getRoom st room.1) as [room0|]; [|done].
  destruct (negb _); [done|].
  pose proof (transitionPhase_frame st room0.1 (Some "choosing_word")
    [R_roundPhase (Some "drawing");
     R_roundPhaseEndTime (Some (now + PHASE_DURATIONS_drawing * 1000));
     R_roundRemainingTime (Some PHASE_DURATIONS_drawing); R_roundStartTime (Some now)]) as [H _].
  destruct (transitionPhase _ _ _ _) as [st1 [room1|]]; cbn [fst] in *; done.
Qed.

(** A valid word choice sets the drawer's [eliminationCount] to 3. *)
Lemma choose_word_resets_elimination st socket roomId_ word now r uid options k p :
  rooms st !! roomId_ = Some r ->
  currentDrawerId r = Some uid -> socket_user socket = Some uid ->
  roundPhase r = Some "choosing_word" ->
  currentWordOptions r = Some options -> word ∈ options ->
  participants st !! k = Some p -> roomId p = roomId_ -> userId p = uid ->
  (eliminationCount <$> participants (choose_word st socket roomId_ word now).1 !! k) = Some 3.
Proof.
  intros Hr Hd Hu Hph Ho Hw Hk Hp1 Hp2. unfold choose_word, Room_findByPk.
  rewrite Hr. cbn [fmap option_fmap option_map fst snd]. rewrite Hd, Hu, Hph, Ho.
  rewrite !bool_decide_eq_true_2 by done. cbn [negb].
  rewrite startDrawingPhase_participants.
  cbn [participants RoomParticipant_update withParticipants Room_save withRooms].
  rewrite lookup_fmap, Hk. cbn [fmap option_fmap option_map].
  unfold inRoom. by rewrite !bool_decide_eq_true_2.
Qed.

(** With at most one elimination left the count reaches 0 (never less), the
    participant is removed (the row is inactive without socket, or gone with
    a room that has no active participant left), [player_removed] is
    broadcast and the rotation continues on the refetched room. *)
Lemma skipDrawer_removes sel st R r k p :
  rooms st !! R = Some r -> participants st !! k = Some p -> roomId p = R ->
  eliminationCount p <= 1 ->
  exists st2 closeEvents,
    skipDrawer sel st R (k, p)
    = (let '(st3, nextEvents) := continueRotation sel st2 (getRoom st2 R) in
       (st3, [drawer_skipped (code r) (userId p) 0]
             ++ ([player_removed (code r) (userId p) "failed_to_choose_word"] ++ closeEvents)
             ++ nextEvents))
    /\ (participants st2 !! k = None
        \/ exists p', participants st2 !! k = Some p'
                      /\ isActive p' = false /\ socketId p' = None /\ eliminationCount p' = 0).
Proof.
  intros Hr Hk Hp He. unfold skipDrawer. cbn [fst snd].
  rewrite (Z.max_l 0 (eliminationCount p - 1)) by lia.
  set (st1 := RoomParticipant_updateById k _ st).
  assert (Hr1 : rooms st1 !! R = Some r) by done.
  unfold getRoom at 1. unfold Room_findByPk. rewrite Hr1.
  cbn [fmap option_fmap option_map fst snd].
  rewrite (bool_decide_eq_true_2 (0 <= 0)) by done.
  unfold removeParticipantFromRoom. cbn [fst snd].
  set (st1' := RoomParticipant_update _ _ st1).
  assert (Hrow : exists p', participants st1' !! k = Some p'
                   /\ isActive p' = false /\ socketId p' = None /\ eliminationCount p' = 0).
  { subst st1' st1.
    cbn [participants RoomParticipant_update RoomParticipant_updateById withParticipants].
    rewrite lookup_fmap, lookup_alter_eq, Hk. cbn [fmap option_fmap option_map].
    unfold inRoom. cbn. rewrite !bool_decide_eq_true_2 by done. cbn. eexists. done. }
  unfold checkAndCloseEmptyRoom, getRoom, Room_findByPk.
  assert (Hr1' : rooms st1' !! R = Some r) by done.
  rewrite Hr1'. cbn [fmap option_fmap option_map].
  case_bool_decide.
  - eexists _, _. split; [reflexivity|]. left.
    cbn [deleteRoom fst participants withRooms withParticipants].
    apply map_lookup_filter_None. right. intros p' Hp'. cbn.
    destruct Hrow as (p'' & Hp'' & _). rewrite Hp' in Hp''. injection Hp'' as <-.
    intros Hne. apply Hne.
    subst st1' st1. revert Hp'.
    cbn [participants RoomParticipant_update RoomParticipant_updateById withParticipants].
    rewrite lookup_fmap, lookup_alter_eq, Hk. cbn [fmap option_fmap option_map].
    intros [= <-]. by destruct (inRoom R _ && _).
  - eexists _, _. split; [reflexivity|]. by right.
Qed.

(** ** The statements at concrete inputs *)




(** Scenario E1: a guess at 30 s of an 80 s round is worth 7 points; the
    drawer of a three-player room with one correct guesser earns 10. *)
Example e1_guess_reward :
  guessReward (mkRoom "ABCDE" "1v1" (Some "drawing") (Some "tree") (Some 1) (Some 80000)) 30000 = 7.
Proof. reflexivity. Qed.

Example e1_drawer_points :
  (score <$> participants (endDrawingPhase soloGuessedStore
       (1, mkRoom "ABCDE" "1v1" (Some "drawing") (Some "tree") (Some 1) (Some 80000))
       80000 80000).1 !! 11) = Some (Qc_of_Z 10).
Proof. apply (f_equal Some). apply Qc_is_canon. reflexivity. Qed.


Lemma off_team_guess_rejected_witness :
  let result :=
    submit_guess teamStore (Build_Socket "s2" (Some 2)) (Some "TEAMS") None "tree"
      (clockAt 20000) in
  result.1 = teamStore
  /\ (exists msg, result.2 = [guess_result "s2" false msg])
  /\ (Some "drawing" = Some "drawing" ->
      (exists w, Some "tree" = Some w /\ w <> "") ->
      false = false -> false = false ->
      result.2 = [guess_result "s2" false "wrong_team"]).
Proof.
  exact (off_team_guess_rejected teamStore (Build_Socket "s2" (Some 2)) (Some "TEAMS") None
           "tree" (clockAt 20000)
           (2, mkRoom "TEAMS" "team_vs_team" (Some "drawing") (Some "tree") (Some 1) (Some 80000))
           2 (22, mkParticipant 2 2 (Some "orange") false 0)
           eq_refl eq_refl eq_refl eq_refl eq_refl).
Defined.

(** C6 as worded fails: while the blue drawer is still choosing the word, a
    guess of an orange player is answered [not_drawing_phase], not
    [wrong_team]. *)
Lemma off_team_guess_counterexample : ~ offTeamGuessAnsweredWrongTeam.
Proof.
  intros H.
  specialize (H teamChoosingStore (Build_Socket "s2" (Some 2)) (Some "TEAMS") None "tree"
                (clockAt 5000)
                (2, mkRoom "TEAMS" "team_vs_team" (Some "choosing_word") None (Some 1) (Some 10000))
                2 (22, mkParticipant 2 2 (Some "orange") false 0)
                eq_refl eq_refl eq_refl eq_refl eq_refl).
  vm_compute in H. discriminate H.
Qed.

Example off_team_guess_while_choosing :
  submit_guess teamChoosingStore (Build_Socket "s2" (Some 2)) (Some "TEAMS") None "tree"
    (clockAt 5000)
  = (teamChoosingStore, [guess_result "s2" false "not_drawing_phase"]).
Proof. reflexivity. Qed.


Lemma rankedStore_users :
  forall p : ParticipantInst,
    In p (RoomParticipant_findAll (fun q => inRoom 1 q && isActive q) rankedStore) ->
    is_Some (users rankedStore !! userId p.2).
Proof.
  intros p Hp. vm_compute in Hp.
  destruct Hp as [<-|[<-|[<-|[]]]]; by eexists.
Qed.

Lemma solo_game_end_ranking_witness :
  let room := (1, mkRoom "ABCDE" "1v1" (Some "reveal") (Some "tree") (Some 1) (Some 87000)) in
  let active := RoomParticipant_findAll (fun p => inRoom 1 p && isActive p) rankedStore in
  exists ranked rankings mode,
    (endGame rankedStore room).2 = [game_ended "ABCDE" rankings 250 mode]
    /\ Permutation ranked active
    /\ StronglySorted ranksBefore ranked
    /\ map place rankings = map Z.of_nat (seq 1 (length active))
    /\ map rk_userId rankings = map (fun p => userId p.2) ranked
    /\ map rk_score rankings = map (fun p => score p.2) ranked
    /\ (length active = 2%nat -> map coinsAwarded rankings = [250 * 2; 0])
    /\ (forall n, length active = S (S (S n)) ->
        map coinsAwarded rankings = [250 * 3; 250 * 2; 250 * 1] ++ repeat 0 n)
    /\ (0 <= 250 -> NoDup (map (fun p => userId p.2) active) ->
        forall rk, In rk rankings ->
          users (endGame rankedStore room).1 !! rk_userId rk
          = creditedUser (coinsAwarded rk) <$> users rankedStore !! rk_userId rk).
Proof.
  refine (solo_game_end_ranking rankedStore
            (1, mkRoom "ABCDE" "1v1" (Some "reveal") (Some "tree") (Some 1) (Some 87000))
            _ rankedStore_users).
  intros H. vm_compute in H. discriminate H.
Defined.

(** The ranking of the example: user 1 (62 points) first, then user 3, who
    reached the 40 points before user 2; the balances grow by 750, 500, 250. *)
Example ranked_example :
  let result :=
    endGame rankedStore
      (1, mkRoom "ABCDE" "1v1" (Some "reveal") (Some "tree") (Some 1) (Some 87000)) in
  match result.2 with
  | [game_ended _ rankings _ _] => map (fun rk => (place rk, rk_userId rk, coinsAwarded rk)) rankings
  | _ => []
  end = [(1, 1, 750); (2, 3, 500); (3, 2, 250)]
  /\ (coins <$> users result.1 !! 1) = Some 1750
  /\ (coins <$> users result.1 !! 3) = Some 1500
  /\ (coins <$> users result.1 !! 2) = Some 1250.
Proof. vm_compute. repeat split; reflexivity. Qed.


(** The abort on the example lobby: users 1 and 2 have been charged 250 coins
    and are marked as having paid, user 5 lacks the coins, and the room is
    still in the lobby. *)
Example start_game_abort_example :
  let result :=
    start_game noRotation lobbyStore lobbyReady ∅ (Build_Socket "s1" (Some 1))
      (Some "LOBBY") None in
  result.2 = [error_event "s1" "insufficient_coins"]
  /\ (coins <$> users result.1.1 !! 1) = Some 750
  /\ (coins <$> users result.1.1 !! 2) = Some 750
  /\ (coins <$> users result.1.1 !! 5) = Some 10
  /\ (hasPaidEntry <$> participants result.1.1 !! 41) = Some true
  /\ (hasPaidEntry <$> participants result.1.1 !! 43) = Some true
  /\ (hasPaidEntry <$> participants result.1.1 !! 42) = Some false
  /\ (status <$> rooms result.1.1 !! 4) = Some "lobby"
  /\ coinTransactions result.1.1
     = [Build_CoinTransaction 2 (-250) "game_entry"; Build_CoinTransaction 1 (-250) "game_entry"].
Proof. vm_compute. repeat split; reflexivity. Qed.

(** C7. The handler of the resumed word-choice timer on a room whose drawer
    (user 1) has three eliminations left: the count goes down to 2 and the
    skip is announced, but the room is left in [_internal_processing] with
    its drawer and word options still set, and the rotation is not
    continued; the callback of the regular timer, on the same state, takes
    the room back to [selecting_drawer] with drawer, word and options cleared
    and hands it to the rotation. *)
Theorem handleChoosingWordTimeout_leaves_room_stuck
    (sel : Store -> RoomInst -> Store * list Event) :
  (let result := handleChoosingWordTimeout sel choosingStore (3, choosingRoom) in
   result.2 = [drawer_skipped "WORDS" 1 2]
   /\ (roundPhase <$> rooms result.1 !! 3) = Some (Some "_internal_processing")
   /\ (currentDrawerId <$> rooms result.1 !! 3) = Some (Some 1)
   /\ (currentWordOptions <$> rooms result.1 !! 3) = Some (Some ["apple"; "banana"; "cat"])
   /\ (eliminationCount <$> participants result.1 !! 31) = Some 2)
  /\ exists st2 r2,
       choosingWordTimerCallback sel choosingStore (3, choosingRoom) 1
       = (let '(st3, nextEvents) := sel st2 (3, r2) in
          (st3, [drawer_skipped "WORDS" 1 2] ++ nextEvents))
       /\ rooms st2 !! 3 = Some r2
       /\ roundPhase r2 = Some "selecting_drawer"
       /\ currentDrawerId r2 = None /\ currentWord r2 = None /\ currentWordOptions r2 = None
       /\ (eliminationCount <$> participants st2 !! 31) = Some 2.
Proof.
  split.
  - destruct (handleChoosingWordTimeout_stuck sel choosingStore (3, choosingRoom) choosingRoom
                1 31 (mkParticipant 3 1 None true 0) eq_refl eq_refl eq_refl ltac:(done)
                eq_refl ltac:(reflexivity)) as (st2 & -> & Hr & He).
    cbn [fst snd] in *. rewrite Hr. done.
  - destruct (choosingWordTimerCallback_returns sel choosingStore (3, choosingRoom) choosingRoom
                1 31 (mkParticipant 3 1 None true 0) eq_refl eq_refl eq_refl
                ltac:(reflexivity)) as (st2 & r2 & H).
    exists st2, r2. exact H.
Qed.
